(** * ndt-e2e-clientworker: the Selenium driver of the NDT HTML5 client

    A shallow embedding of [client_wrapper/client_wrapper.py] and
    [client_wrapper/browser_client_common.py].

    The Python code is a straight-line script over three kinds of effects:
    - commands sent to the Selenium-controlled browser, each of which either
      completes or raises;
    - reads of the wall clock, [datetime.now(pytz.utc)];
    - updates of the per-instance dictionary [_result_values].

    The browser and the clock are outside the repository, so they are
    oracles: the answer to a command may depend on the command and on how
    many interactions happened before it.  Every interaction is also written
    to a log, so that ordering properties can be stated on what was observed
    during a run. *)

From stdpp Require Import gmap strings list.
From Stdlib Require Import ZArith String Ascii List Lia DecimalString Sorted.
Import ListNotations.
Local Open Scope string_scope.
Local Open Scope Z_scope.

(** ** Python values and exceptions *)

(** The exceptions the code raises, catches or lets through.  The three
    Selenium classes form a hierarchy: [TimeoutException] and
    [NoSuchElementException] derive from [WebDriverException]. *)
Inductive exn : Type :=
| WebDriverException (msg : string)
| TimeoutException (msg : string)
| NoSuchElementException (msg : string)
| ValueError (msg : string)
| TypeError (msg : string)
| KeyError (key : string)
| IndexError
| AttributeError.

(** [isinstance(e, WebDriverException)] *)
Definition is_WebDriverException (e : exn) : bool :=
  match e with
  | WebDriverException _ | TimeoutException _ | NoSuchElementException _ => true
  | _ => false
  end.

(** [isinstance(e, TimeoutException)] *)
Definition is_TimeoutException (e : exn) : bool :=
  match e with
  | TimeoutException _ => true
  | _ => false
  end.

(** [e.msg] of a Selenium exception. *)
Definition msg_of (e : exn) : string :=
  match e with
  | WebDriverException m | TimeoutException m | NoSuchElementException m => m
  | _ => ""
  end.

(** class TestError: a datetime (as a number of clock units) and a message. *)
Record TestError : Type := mkTestError { timestamp : Z; message : string }.

(** What the dictionary [_result_values] can hold: [None], a datetime, the
    text of a page element, or the list of errors. *)
Inductive value : Type :=
| PyNone
| Datetime (t : Z)
| Text (s : string)
| ErrorList (es : list TestError).

(** class NdtResult.  The constructor stores its arguments unchanged, so every
    field is a Python value. *)
Record NdtResult : Type := mkNdtResult {
  start_time : value;
  end_time : value;
  c2s_start_time : value;
  s2c_start_time : value;
  errors : value;
  latency : value;
  c2s_throughput : value;
  s2c_throughput : value
}.

(** ** The browser *)

Inductive webdriver_class : Type := Firefox | Chrome | Edge | Safari.

(** A WebElement is an opaque handle given out by the browser. *)
Definition element : Type := nat.

(** One entry of the log of a run. *)
Inductive event : Type :=
| Launched (cls : webdriver_class) (r : option exn)
| Navigated (url : string) (r : option exn)
| FoundById (id : string) (r : exn + element)
| FoundByXPath (xpath : string) (r : exn + list element)
| Clicked (el : element) (r : option exn)
| Waited (el : element) (timeout : Z) (r : option exn)
| ReadText (el : element) (r : exn + string)
| Closed (r : option exn)
| ClockRead (t : Z)
| Assigned (key : string) (v : value)
| Appended (e : TestError).

(** The browser as an oracle.  The first argument of every command is the
    number of interactions that happened before it; [None] and [inr] mean
    that the command completed, [Some e] and [inl e] that it raised [e]. *)
Record Browser : Type := mkBrowser {
  on_launch : nat -> webdriver_class -> option exn;
  on_get : nat -> string -> option exn;
  on_find_element_by_id : nat -> string -> exn + element;
  on_find_elements_by_xpath : nat -> string -> exn + list element;
  on_click : nat -> element -> option exn;
  on_until_visible : nat -> element -> Z -> option exn;
  on_text : nat -> element -> exn + string;
  on_close : nat -> option exn
}.

(** ** The state of one [NdtHtml5SeleniumDriver] and its monad *)

Record driver_state : Type := mkState {
  _result_values : gmap string value;
  events : list event            (* newest first *)
}.

(** The log in chronological order. *)
Definition history (s : driver_state) : list event := rev (events s).

Inductive outcome (A : Type) : Type :=
| Returned (a : A)
| Raised (e : exn).
Arguments Returned {A} a.
Arguments Raised {A} e.

(** A Python computation: it runs on the instance state and either returns or
    raises; the state changes made before a raise are kept. *)
Definition Py (A : Type) : Type := driver_state -> outcome A * driver_state.

Definition ret {A} (a : A) : Py A := fun s => (Returned a, s).

Definition raise {A} (e : exn) : Py A := fun s => (Raised e, s).

Definition bind {A B} (m : Py A) (k : A -> Py B) : Py B :=
  fun s =>
    match m s with
    | (Returned a, s') => k a s'
    | (Raised e, s') => (Raised e, s')
    end.

(** [try: m except C as e: h e] where [handles e] decides [isinstance(e, C)]. *)
Definition try_except {A} (m : Py A) (handles : exn -> bool) (h : exn -> Py A) : Py A :=
  fun s =>
    match m s with
    | (Returned a, s') => (Returned a, s')
    | (Raised e, s') => if handles e then h e s' else (Raised e, s')
    end.

Declare Scope py_scope.
Delimit Scope py_scope with py.
Notation "x <- m ;; k" := (bind m (fun x => k))
  (at level 100, m at next level, right associativity) : py_scope.
Notation "m ;;; k" := (bind m (fun _ => k))
  (at level 100, right associativity) : py_scope.
Local Open Scope py_scope.

Definition log (ev : event) (s : driver_state) : driver_state :=
  {| _result_values := _result_values s; events := ev :: events s |}.

(** The number of interactions so far. *)
Definition tick (s : driver_state) : nat := length (events s).

(** An oracle answer read as the result of a Python call. *)
Definition completed (r : option exn) : outcome unit :=
  match r with
  | None => Returned tt
  | Some e => Raised e
  end.

Definition produced {A} (r : exn + A) : outcome A :=
  match r with
  | inr a => Returned a
  | inl e => Raised e
  end.

(** [l[0]] *)
Definition first_item {A} (l : list A) : Py A :=
  match l with
  | x :: _ => ret x
  | [] => raise IndexError
  end.

(** [self._result_values[key]] *)
Definition getitem (key : string) : Py value :=
  fun s =>
    match _result_values s !! key with
    | Some v => (Returned v, s)
    | None => (Raised (KeyError key), s)
    end.

(** [self._result_values[key] = v] *)
Definition setitem (key : string) (v : value) : Py unit :=
  fun s =>
    (Returned tt,
     {| _result_values := <[key := v]> (_result_values s);
        events := Assigned key v :: events s |}).

(** [lst.append(e)] on the list held under ['errors']. *)
Definition list_append (e : TestError) : Py unit :=
  fun s =>
    match _result_values s !! "errors" with
    | Some (ErrorList es) =>
        (Returned tt,
         {| _result_values := <["errors" := ErrorList (es ++ [e])]> (_result_values s);
            events := Appended e :: events s |})
    | _ => (Raised AttributeError, s)
    end.

(** [NdtResult] called with the dictionary as its keyword arguments (the
    double-star call of the source): the five positional parameters must
    be among the keys, the three metrics default to [None], and a key that is
    no parameter is a [TypeError]. *)
Definition NdtResult_parameters : gset string :=
  {[ "start_time"; "end_time"; "c2s_start_time"; "s2c_start_time"; "errors";
     "latency"; "c2s_throughput"; "s2c_throughput" ]}.

Definition NdtResult_from (d : gmap string value) : outcome NdtResult :=
  if decide (dom d ⊆ NdtResult_parameters) then
    match d !! "start_time", d !! "end_time", d !! "c2s_start_time",
          d !! "s2c_start_time", d !! "errors" with
    | Some st, Some en, Some c2s, Some s2c, Some errs =>
        Returned {| start_time := st; end_time := en; c2s_start_time := c2s;
                    s2c_start_time := s2c; errors := errs;
                    latency := default PyNone (d !! "latency");
                    c2s_throughput := default PyNone (d !! "c2s_throughput");
                    s2c_throughput := default PyNone (d !! "s2c_throughput") |}
    | _, _, _, _, _ => Raised (TypeError "__init__() takes at least 6 arguments")
    end
  else Raised (TypeError "__init__() got an unexpected keyword argument").

Definition new_NdtResult : Py NdtResult :=
  fun s => (NdtResult_from (_result_values s), s).

(** [NdtHtml5SeleniumDriver.__init__] *)
Definition init_result_values : gmap string value :=
  <["start_time" := PyNone]>
  (<["end_time" := PyNone]>
  (<["c2s_start_time" := PyNone]>
  (<["s2c_start_time" := PyNone]>
  (<["errors" := ErrorList []]> ∅)))).

Definition new_driver : driver_state :=
  {| _result_values := init_result_values; events := [] |}.

(** ** client_wrapper.py *)

Section ClientWrapper.

(** [clock n] is the value of [datetime.now(pytz.utc)] when [n]
    interactions happened before the read. *)
Variable clock : nat -> Z.

Variable B : Browser.

(** Python's [float] on text: whether the text is accepted as a number. *)
Variable float_accepts : string -> bool.

(** Python's [str] on the values that are not text; it is only there to
    make [str] total and no run reaches it. *)
Variable str_object : value -> string.

(** [datetime.now(pytz.utc)] *)
Definition now : Py Z :=
  fun s => let t := clock (tick s) in (Returned t, log (ClockRead t) s).

(** [float(v)] *)
Definition float (v : value) : Py unit :=
  match v with
  | Text s =>
      if float_accepts s then ret tt
      else raise (ValueError ("could not convert string to float: " ++ s))
  | _ => raise (TypeError "float() argument must be a string or a number")
  end.

(** [str(v)] *)
Definition str (v : value) : string :=
  match v with
  | Text s => s
  | PyNone => "None"
  | _ => str_object v
  end.

(** [webdriver.Firefox()] and the other constructors. *)
Definition webdriver_new (cls : webdriver_class) : Py webdriver_class :=
  fun s =>
    let r := on_launch B (tick s) cls in
    (match r with None => Returned cls | Some e => Raised e end,
     log (Launched cls r) s).

(** A method call on [driver], which is [None] when no browser was
    selected. *)
Definition method {R A} (driver : option webdriver_class)
    (answer : nat -> R) (ev : R -> event) (res : R -> outcome A) : Py A :=
  match driver with
  | None => raise AttributeError
  | Some _ => fun s => let r := answer (tick s) in (res r, log (ev r) s)
  end.

Definition get (driver : option webdriver_class) (url : string) : Py unit :=
  method driver (fun n => on_get B n url) (Navigated url) completed.

Definition find_element_by_id (driver : option webdriver_class) (id : string)
  : Py element :=
  method driver (fun n => on_find_element_by_id B n id) (FoundById id) produced.

Definition find_elements_by_xpath (driver : option webdriver_class)
    (xpath : string) : Py (list element) :=
  method driver (fun n => on_find_elements_by_xpath B n xpath)
         (FoundByXPath xpath) produced.

Definition close (driver : option webdriver_class) : Py unit :=
  method driver (on_close B) Closed completed.

(** [ui.WebDriverWait(driver, timeout=t).until(EC.visibility_of(el))] *)
Definition until_visible (driver : option webdriver_class) (el : element)
    (timeout : Z) : Py unit :=
  method driver (fun n => on_until_visible B n el timeout)
         (Waited el timeout) completed.

(** [el.click()] *)
Definition click (el : element) : Py unit :=
  fun s => let r := on_click B (tick s) el in (completed r, log (Clicked el r) s).

(** [el.text] *)
Definition text (el : element) : Py string :=
  fun s => let r := on_text B (tick s) el in (produced r, log (ReadText el r) s).

(** [self._result_values['errors'].append(TestError(datetime.now(pytz.utc),
    message))]: the list and its [append] are looked up before the clock is
    read. *)
Definition append_TestError (message : string) : Py unit :=
  v <- getitem "errors" ;;
  match v with
  | ErrorList _ => t <- now ;; list_append (mkTestError t message)
  | _ => raise AttributeError
  end.

Definition test_indiv_metric_is_valid (metric : string) : Py unit :=
  try_except
    (v <- getitem metric ;; float v)
    (fun e => match e with ValueError _ => true | _ => false end)
    (fun _ =>
       v <- getitem metric ;;
       append_TestError ("illegal value shown for " ++ metric ++ ": " ++ str v)).

Definition check_result_metrics : Py unit :=
  test_indiv_metric_is_valid "latency" ;;;
  test_indiv_metric_is_valid "s2c_throughput" ;;;
  test_indiv_metric_is_valid "c2s_throughput".

Definition populate_metric_values (driver : option webdriver_class) : Py unit :=
  (el <- find_element_by_id driver "upload-speed" ;;
   t <- text el ;;
   setitem "c2s_throughput" (Text t)) ;;;
  (el <- find_element_by_id driver "download-speed" ;;
   t <- text el ;;
   setitem "s2c_throughput" (Text t)) ;;;
  (el <- find_element_by_id driver "latency" ;;
   t <- text el ;;
   setitem "latency" (Text t)).

Definition record_test_in_progress_values (driver : option webdriver_class)
    (timeout_time : Z) : Py unit :=
  els <- find_elements_by_xpath driver
           "//*[contains(text(), 'your upload speed')]" ;;
  upload_speed_text <- first_item els ;;
  until_visible driver upload_speed_text timeout_time ;;;
  (t <- now ;; setitem "c2s_start_time" (Datetime t)) ;;;
  els <- find_elements_by_xpath driver
           "//*[contains(text(), 'your download speed')]" ;;
  download_speed_text <- first_item els ;;
  until_visible driver download_speed_text timeout_time ;;;
  (t <- now ;; setitem "s2c_start_time" (Datetime t)) ;;;
  results_text <- find_element_by_id driver "results" ;;
  until_visible driver results_text timeout_time ;;;
  (t <- now ;; setitem "end_time" (Datetime t)).

(** [set_test_browser]: the function ends after its only [if], so every
    other name gives Python's [None]. *)
Definition set_test_browser (browser : string) : Py (option webdriver_class) :=
  if String.eqb browser "firefox" then
    d <- webdriver_new Firefox ;; ret (Some d)
  else ret None.

(** [perform_test].  The two handlers end in [return]; [Some r] carries
    that early result out of the [try], [None] means that the statements
    after the [try] run. *)
Definition perform_test (url browser : string) (timeout_time : Z)
  : Py NdtResult :=
  driver <- set_test_browser browser ;;
  early <- try_except
             (get driver url ;;; ret None)
             is_WebDriverException
             (fun e =>
                if String.eqb (msg_of e)
                     "Target URL invalid_url is not well-formed."
                then
                  append_TestError (msg_of e) ;;;
                  close driver ;;;
                  r <- new_NdtResult ;; ret (Some r)
                else ret None) ;;
  match early with
  | Some r => ret r
  | None =>
      el <- find_element_by_id driver "websocketButton" ;;
      click el ;;;
      els <- find_elements_by_xpath driver
               "//*[contains(text(), 'Start Test')]" ;;
      start_button <- first_item els ;;
      click start_button ;;;
      (t <- now ;; setitem "start_time" (Datetime t)) ;;;
      early <- try_except
                 (record_test_in_progress_values driver timeout_time ;;;
                  populate_metric_values driver ;;;
                  ret None)
                 is_TimeoutException
                 (fun _ =>
                    append_TestError
                      "Test did not complete within timeout period." ;;;
                    close driver ;;;
                    r <- new_NdtResult ;; ret (Some r)) ;;
      match early with
      | Some r => ret r
      | None =>
          check_result_metrics ;;;
          close driver ;;;
          new_NdtResult
      end
  end.

End ClientWrapper.

(** ** A sample world, for running the definitions *)

(** Accepts an optional sign, digits, and an optional fraction: enough of
    the grammar of [float] for the texts of the examples. *)
Fixpoint all_digits (s : string) : bool :=
  match s with
  | EmptyString => true
  | String c r =>
      (Nat.leb 48 (nat_of_ascii c) && Nat.leb (nat_of_ascii c) 57)%bool
      && all_digits r
  end.

Fixpoint digits_then_fraction (seen : bool) (s : string) : bool :=
  match s with
  | EmptyString => seen
  | String c r =>
      if Ascii.eqb c "."%char then
        (all_digits r && (seen || negb (String.eqb r "")))%bool
      else if (Nat.leb 48 (nat_of_ascii c) && Nat.leb (nat_of_ascii c) 57)%bool
           then digits_then_fraction true r
           else false
  end.

Definition decimal_text (s : string) : bool :=
  match s with
  | String "-"%char r | String "+"%char r => digits_then_fraction false r
  | _ => digits_then_fraction false s
  end.

Definition plain_str (v : value) : string := "<object>".

(** The elements of the sample page, by locator. *)
Definition element_of (locator : string) : element :=
  if String.eqb locator "upload-speed" then 1%nat
  else if String.eqb locator "download-speed" then 2%nat
  else if String.eqb locator "latency" then 3%nat
  else if String.eqb locator "//*[contains(text(), 'your upload speed')]" then 4%nat
  else if String.eqb locator "//*[contains(text(), 'your download speed')]" then 5%nat
  else if String.eqb locator "results" then 6%nat
  else 0%nat.

(** A page on which every command completes; the metric elements show [up],
    [down] and [lat]. *)
Definition page (up down lat : string) : Browser :=
  {| on_launch := fun _ _ => None;
     on_get := fun _ _ => None;
     on_find_element_by_id := fun _ id => inr (element_of id);
     on_find_elements_by_xpath := fun _ xpath => inr [element_of xpath];
     on_click := fun _ _ => None;
     on_until_visible := fun _ _ _ => None;
     on_text := fun _ el =>
       inr (match el with 1%nat => up | 2%nat => down | _ => lat end);
     on_close := fun _ => None |}.

(** The same page, except that the element [stuck] never becomes visible. *)
Definition page_stuck_at (stuck : element) (up down lat : string) : Browser :=
  {| on_launch := on_launch (page up down lat);
     on_get := on_get (page up down lat);
     on_find_element_by_id := on_find_element_by_id (page up down lat);
     on_find_elements_by_xpath := on_find_elements_by_xpath (page up down lat);
     on_click := on_click (page up down lat);
     on_until_visible := fun _ el _ =>
       if Nat.eqb el stuck then Some (TimeoutException "") else None;
     on_text := on_text (page up down lat);
     on_close := on_close (page up down lat) |}.

(** A browser that cannot load the URL: navigation raises a
    [WebDriverException] with message [msg], and no element is found
    afterwards. *)
Definition unreachable (msg : string) : Browser :=
  {| on_launch := fun _ _ => None;
     on_get := fun _ _ => Some (WebDriverException msg);
     on_find_element_by_id := fun _ id =>
       inl (NoSuchElementException ("Unable to locate element: " ++ id));
     on_find_elements_by_xpath := fun _ _ => inr [];
     on_click := fun _ _ => None;
     on_until_visible := fun _ _ _ => Some (TimeoutException "");
     on_text := fun _ _ => inr "";
     on_close := fun _ => None |}.

(** A clock that advances by one unit per interaction. *)
Definition ticking (n : nat) : Z := 1000 + Z.of_nat n.

(** The same page without its websocket button. *)
Definition page_without_button (up down lat : string) : Browser :=
  {| on_launch := on_launch (page up down lat);
     on_get := on_get (page up down lat);
     on_find_element_by_id := fun n id =>
       if String.eqb id "websocketButton"
       then inl (NoSuchElementException ("Unable to locate element: " ++ id))
       else on_find_element_by_id (page up down lat) n id;
     on_find_elements_by_xpath := on_find_elements_by_xpath (page up down lat);
     on_click := on_click (page up down lat);
     on_until_visible := on_until_visible (page up down lat);
     on_text := on_text (page up down lat);
     on_close := on_close (page up down lat) |}.

(** Sample runs on a new driver: a complete test, a test whose download
    phase never shows, a test whose latency is not a number, a page without
    the button, and a malformed URL. *)
Definition complete_run : outcome NdtResult * driver_state :=
  perform_test ticking (page "12.5" "80.1" "23") decimal_text plain_str
    "http://ndt.example:7123/" "firefox" 20 new_driver.

Definition stalled_download_run : outcome NdtResult * driver_state :=
  perform_test ticking (page_stuck_at 5%nat "12.5" "80.1" "23") decimal_text
    plain_str "http://ndt.example:7123/" "firefox" 20 new_driver.

Definition bad_latency_run : outcome NdtResult * driver_state :=
  perform_test ticking (page "12.5" "80.1" "n/a") decimal_text plain_str
    "http://ndt.example:7123/" "firefox" 20 new_driver.

Definition missing_button_run : outcome NdtResult * driver_state :=
  perform_test ticking (page_without_button "12.5" "80.1" "23") decimal_text
    plain_str "http://ndt.example:7123/" "firefox" 20 new_driver.

Definition malformed_url : string := "not_a_url".

Definition malformed_url_run : outcome NdtResult * driver_state :=
  perform_test ticking
    (unreachable "Target URL not_a_url is not well-formed.")
    decimal_text plain_str malformed_url "firefox" 20 new_driver.

(** More sample pages and runs. *)

(** The sample page without a Start Test button. *)
Definition page_without_start_button (up down lat : string) : Browser :=
  {| on_launch := on_launch (page up down lat);
     on_get := on_get (page up down lat);
     on_find_element_by_id := on_find_element_by_id (page up down lat);
     on_find_elements_by_xpath := fun n xpath =>
       if String.eqb xpath "//*[contains(text(), 'Start Test')]" then inr []
       else on_find_elements_by_xpath (page up down lat) n xpath;
     on_click := on_click (page up down lat);
     on_until_visible := on_until_visible (page up down lat);
     on_text := on_text (page up down lat);
     on_close := on_close (page up down lat) |}.


Definition no_start_button_run : outcome NdtResult * driver_state :=
  perform_test ticking (page_without_start_button "12.5" "80.1" "23")
    decimal_text plain_str "http://ndt.example:7123/" "firefox" 20 new_driver.


(** The one load error that [perform_test] knows. *)
Definition invalid_url_run : outcome NdtResult * driver_state :=
  perform_test ticking
    (unreachable "Target URL invalid_url is not well-formed.")
    decimal_text plain_str "invalid_url" "firefox" 20 new_driver.

(** A complete test on the driver object that went through
    [stalled_download_run] before. *)
Definition second_run : outcome NdtResult * driver_state :=
  perform_test ticking (page "12.5" "80.1" "23") decimal_text plain_str
    "http://ndt.example:7123/" "firefox" 20 (snd stalled_download_run).


Definition stalled_twice_run : outcome NdtResult * driver_state :=
  perform_test ticking (page_stuck_at 5%nat "12.5" "80.1" "23") decimal_text
    plain_str "http://ndt.example:7123/" "firefox" 20 (snd stalled_download_run).


(** ** browser_client_common.py *)

(** Modelled from the spec: the module [names] imported by
    browser_client_common.py is not among the sources.  The spec lists the
    supported identifiers as firefox, chrome, edge and safari, and so does the
    docstring of [create_browser]. *)
Module names.
Definition FIREFOX : string := "firefox".
Definition CHROME : string := "chrome".
Definition EDGE : string := "edge".
Definition SAFARI : string := "safari".
End names.

Section BrowserClientCommon.

Variable clock : nat -> Z.
Variable B : Browser.

(** ['Failed to load URL: %s' % url] *)
Definition ERROR_FAILED_TO_LOAD_URL_FORMAT (url : string) : string :=
  "Failed to load URL: " ++ url.

Definition create_browser (browser : string) : Py webdriver_class :=
  if String.eqb browser names.FIREFOX then webdriver_new B Firefox
  else if String.eqb browser names.CHROME then webdriver_new B Chrome
  else if String.eqb browser names.EDGE then webdriver_new B Edge
  else if String.eqb browser names.SAFARI then webdriver_new B Safari
  else raise (ValueError ("Invalid browser specified: " ++ browser)).

(** Modelled from the spec: the class [results.TestError] is not among the
    sources.  The spec gives a TestError a timestamp and a message; this
    constructor takes the message only, so it reads the clock itself. *)
Definition results_TestError (message : string) : Py TestError :=
  t <- now clock ;; ret (mkTestError t message).

(** [load_url]: the caller's list [errors] is appended to in place; the
    model returns it next to the boolean. *)
Definition load_url (driver : option webdriver_class) (url : string)
    (errors : list TestError) : Py (bool * list TestError) :=
  try_except
    (get B driver url ;;; ret (true, errors))
    is_WebDriverException
    (fun _ =>
       e <- results_TestError (ERROR_FAILED_TO_LOAD_URL_FORMAT url) ;;
       ret (false, (errors ++ [e])%list)).

End BrowserClientCommon.

(** ** The replay server *)

(** Modelled from the spec: client_wrapper/ndt_client_http_server.py is not
    among the sources, only its test is.  Following the spec (section 4.2)
    and the test, [async_start] builds the HTTP server on port 0 of the local
    host, takes the port from the bound socket and starts serving on a
    background thread; a failure of the bind is raised to the caller.  [port]
    is [None] until a start succeeded. *)
Module ReplayServer.

(** [socket.error] *)
Inductive socket_error : Type := SocketError (cause : string).

Record NdtClientHTTPServer : Type := mkServer {
  client_path : string;
  port : option Z;
  serving : bool;          (* [serve_forever] runs on the background thread *)
  shutdown_called : bool
}.

Definition new_server (path : string) : NdtClientHTTPServer :=
  {| client_path := path; port := None; serving := false;
     shutdown_called := false |}.

(** [bind] is the outcome of [HTTPServer(('', 0), handler)]: the error it
    raises, or the port in [socket.getsockname()] of the bound socket. *)
Definition async_start (bind : socket_error + Z) (srv : NdtClientHTTPServer)
  : (socket_error + unit) * NdtClientHTTPServer :=
  match bind with
  | inl e => (inl e, srv)
  | inr p =>
      (inr tt,
       {| client_path := client_path srv; port := Some p; serving := true;
          shutdown_called := shutdown_called srv |})
  end.

Definition stop (srv : NdtClientHTTPServer) : NdtClientHTTPServer :=
  {| client_path := client_path srv; port := port srv; serving := false;
     shutdown_called := true |}.

End ReplayServer.

(** ** What a run showed

    The properties of a run are stated on its log. *)



(** The answers to the reads of element texts, in order. *)
Fixpoint texts_read (h : list event) : list (exn + string) :=
  match h with
  | [] => []
  | ReadText _ r :: h' => r :: texts_read h'
  | _ :: h' => texts_read h'
  end.





(** A call of [driver.close()] raised. *)
Definition close_raised (h : list event) : bool :=
  existsb (fun ev => match ev with Closed (Some _) => true | _ => false end) h.

(** A call of [driver.close()] completed. *)
Definition browser_closed (h : list event) : bool :=
  existsb (fun ev => match ev with Closed None => true | _ => false end) h.



(** The message of the error that validation records for [metric] showing
    [raw], if any. *)
Definition illegal_value (float_accepts : string -> bool) (metric raw : string)
  : list string :=
  if float_accepts raw then []
  else ["illegal value shown for " ++ metric ++ ": " ++ raw].

(** The errors held by a dictionary. *)
Definition errors_of (d : gmap string value) : list TestError :=
  match d !! "errors" with
  | Some (ErrorList es) => es
  | _ => []
  end.




(** The message of the error recorded when a wait runs out of time. *)
Definition timeout_message : string :=
  "Test did not complete within timeout period.".

(** ** What one run showed, on a driver in any state

    The dictionary and the log belong to the driver object and outlive a
    run.  [since s s'] is what the log gained between [s] and [s'], oldest
    first: the log of the run that led from [s] to [s']. *)
Definition since (s s' : driver_state) : list event :=
  rev (firstn (length (events s') - length (events s)) (events s')).





(** The three phases of [record_test_in_progress_values], in the order of
    the source: how the element of the phase is looked up, and the key that
    receives the timestamp of the phase. *)
Inductive locator : Type := ByXPath (xpath : string) | ById (id : string).


(** [ev] is the lookup by [loc] that produced [el]: the first match of an
    XPath, the element of an id. *)
Definition found (loc : locator) (el : element) (ev : event) : Prop :=
  match loc with
  | ByXPath xpath => exists els, ev = FoundByXPath xpath (inr (el :: els))
  | ById id => ev = FoundById id (inr el)
  end.





(** The result [r] with the parameter [key] replaced by [v]. *)
Definition with_field (key : string) (v : value) (r : NdtResult) : NdtResult :=
  if String.eqb key "start_time" then
    mkNdtResult v (end_time r) (c2s_start_time r) (s2c_start_time r)
      (errors r) (latency r) (c2s_throughput r) (s2c_throughput r)
  else if String.eqb key "end_time" then
    mkNdtResult (start_time r) v (c2s_start_time r) (s2c_start_time r)
      (errors r) (latency r) (c2s_throughput r) (s2c_throughput r)
  else if String.eqb key "c2s_start_time" then
    mkNdtResult (start_time r) (end_time r) v (s2c_start_time r)
      (errors r) (latency r) (c2s_throughput r) (s2c_throughput r)
  else if String.eqb key "s2c_start_time" then
    mkNdtResult (start_time r) (end_time r) (c2s_start_time r) v
      (errors r) (latency r) (c2s_throughput r) (s2c_throughput r)
  else if String.eqb key "errors" then
    mkNdtResult (start_time r) (end_time r) (c2s_start_time r)
      (s2c_start_time r) v (latency r) (c2s_throughput r) (s2c_throughput r)
  else if String.eqb key "latency" then
    mkNdtResult (start_time r) (end_time r) (c2s_start_time r)
      (s2c_start_time r) (errors r) v (c2s_throughput r) (s2c_throughput r)
  else if String.eqb key "c2s_throughput" then
    mkNdtResult (start_time r) (end_time r) (c2s_start_time r)
      (s2c_start_time r) (errors r) (latency r) v (s2c_throughput r)
  else if String.eqb key "s2c_throughput" then
    mkNdtResult (start_time r) (end_time r) (c2s_start_time r)
      (s2c_start_time r) (errors r) (latency r) (c2s_throughput r) v
  else r.

(** What [NdtResult] makes of the dictionary of a new driver. *)
Definition init_result : NdtResult :=
  mkNdtResult PyNone PyNone PyNone PyNone (ErrorList []) PyNone PyNone PyNone.

(** ** Reasoning about runs *)

(** [wp m Q s]: running [m] on [s] ends in an outcome and a state that
    satisfy [Q]. *)
Definition wp {A} (m : Py A) (Q : outcome A -> driver_state -> Prop)
    (s : driver_state) : Prop :=
  Q (fst (m s)) (snd (m s)).

(** The errors of [s'] are those of [s], possibly followed by new ones. *)
Definition extends (s s' : driver_state) : Prop :=
  errors_of (_result_values s) `prefix_of` errors_of (_result_values s').

(** [m] only ever appends to the list of errors. *)
Definition append_only {A} (m : Py A) : Prop :=
  forall s, extends s (snd (m s)).

(** ** Properties of programs, for any state of the driver *)

(** [m], when it returns a result, returns the one the final dictionary
    gives. *)
Definition returns_dictionary (m : Py NdtResult) : Prop :=
  forall s r,
    fst (m s) = Returned r ->
    NdtResult_from (_result_values (snd (m s))) = Returned r.

(** The same for the body of a [try] that may end in an early [return]. *)
Definition returns_dictionary_early (m : Py (option NdtResult)) : Prop :=
  forall s r,
    fst (m s) = Returned (Some r) ->
    NdtResult_from (_result_values (snd (m s))) = Returned r.

(** [m] keeps a list under ['errors'] and keeps what is in it. *)
Definition keeps_errors {A} (m : Py A) : Prop :=
  forall s es,
    _result_values s !! "errors" = Some (ErrorList es) ->
    exists more,
      _result_values (snd (m s)) !! "errors" = Some (ErrorList (es ++ more)).

(** [m] leaves every key outside [keys] as it was. *)
Definition touches_only {A} (keys : list string) (m : Py A) : Prop :=
  forall s key,
    ~ In key keys ->
    _result_values (snd (m s)) !! key = _result_values s !! key.

Definition timestamp_keys : list string :=
  ["c2s_start_time"; "s2c_start_time"; "end_time"].

Definition metric_keys : list string :=
  ["c2s_throughput"; "s2c_throughput"; "latency"].

(** The exception that the command of a log entry raised, if it did. *)
Definition raised_by (ev : event) : option exn :=
  match ev with
  | Launched _ r | Navigated _ r | Clicked _ r | Waited _ _ r | Closed r => r
  | FoundById _ (inl e) | FoundByXPath _ (inl e) | ReadText _ (inl e) => Some e
  | _ => None
  end.

(** An XPath lookup matched no element. *)
Definition matched_nothing (h : list event) : bool :=
  existsb (fun ev => match ev with
                     | FoundByXPath _ (inr []) => true
                     | _ => false
                     end) h.

(** ** public_test.py *)

(** ['%d' % n] *)
Definition decimal (n : nat) : string := NilZero.string_of_uint (Nat.to_uint n).

(** ['starting iteration %d...' % n] *)
Definition starting_iteration (n : nat) : string :=
  "starting iteration " ++ decimal n ++ "...".

(** [range(n)]: empty when [n] is not positive. *)
Definition range (n : Z) : list nat := seq 0 (Z.to_nat n).

Section PublicTest.

(** The driver object is any object with a [perform_test()] method that
    takes no argument: [Driver] is the state of the object and of what it
    drives, and [str_result] is [str] of a result, which [print] writes. *)
Variable Driver : Type.
Variable Result : Type.
Variable driver_perform_test : Driver -> outcome Result * Driver.
Variable str_result : Result -> string.

(** The body of the [for] loop over the remaining indices.  [printed] holds
    what the [print] statements executed so far wrote, one entry per
    statement, oldest first; an entry is the whole text of the statement,
    which [str] of a result can spread over several lines. *)
Fixpoint iterate_over (indices : list nat) (driver : Driver)
    (printed : list string) : outcome unit * (Driver * list string) :=
  match indices with
  | [] => (Returned tt, (driver, printed))
  | i :: rest =>
      let announced := (printed ++ [starting_iteration (i + 1)])%list in
      match driver_perform_test driver with
      | (Returned result, driver') =>
          iterate_over rest driver' (announced ++ [str_result result])%list
      | (Raised e, driver') => (Raised e, (driver', announced))
      end
  end.

(** [_run_test_iterations]; [output_dir] is not used by the body. *)
Definition _run_test_iterations (driver : Driver) (iterations : Z)
    (output_dir : string) : outcome unit * (Driver * list string) :=
  iterate_over (range iterations) driver [].

End PublicTest.

(** Two sample driver objects for the loop, which are not drivers of this
    repository: the state of each is the number of tests it ran, its
    [perform_test()] takes no argument and returns the number of the test,
    and [str] of that result is its decimal notation.  The second one
    raises on its second test. *)
Definition counting_perform_test (tests : nat) : outcome nat * nat :=
  (Returned (S tests), S tests).

Definition failing_second_perform_test (tests : nat) : outcome nat * nat :=
  if Nat.eqb tests 1
  then (Raised (WebDriverException "connection lost"), S tests)
  else (Returned (S tests), S tests).

Definition two_counted_iterations : outcome unit * (nat * list string) :=
  _run_test_iterations nat nat counting_perform_test decimal 0%nat 2 "out".

Definition second_iteration_fails : outcome unit * (nat * list string) :=
  _run_test_iterations nat nat failing_second_perform_test decimal 0%nat 2
    "out".

Lemma wp_run {A} (m : Py A) Q s out s' :
  wp m Q s -> m s = (out, s') -> Q out s'.
Proof. unfold wp. intros H E. rewrite E in H. exact H. Qed.

Lemma wp_ret {A} (a : A) Q s : Q (Returned a) s -> wp (ret a) Q s.
Proof. exact (fun H => H). Qed.

Lemma wp_raise {A} e (Q : outcome A -> driver_state -> Prop) s :
  Q (Raised e) s -> wp (raise e) Q s.
Proof. exact (fun H => H). Qed.

Lemma wp_bind {A C} (m : Py A) (k : A -> Py C) Q s :
  wp m (fun o s' => match o with
                    | Returned a => wp (k a) Q s'
                    | Raised e => Q (Raised e) s'
                    end) s ->
  wp (bind m k) Q s.
Proof.
  unfold wp, bind. destruct (m s) as [[a|e] s']; exact (fun H => H).
Qed.

Lemma wp_try_except {A} (m : Py A) handles h Q s :
  wp m (fun o s' => match o with
                    | Returned a => Q (Returned a) s'
                    | Raised e => if handles e : bool then wp (h e) Q s'
                                  else Q (Raised e) s'
                    end) s ->
  wp (try_except m handles h) Q s.
Proof.
  unfold wp, try_except. destruct (m s) as [[a|e] s']; cbn [fst snd].
  - exact (fun H => H).
  - destruct (handles e); exact (fun H => H).
Qed.

Lemma wp_setitem k v Q d evs :
  Q (Returned tt) (mkState (<[k := v]> d) (Assigned k v :: evs)) ->
  wp (setitem k v) Q (mkState d evs).
Proof. exact (fun H => H). Qed.

Lemma wp_getitem k o Q d evs :
  d !! k = o ->
  match o with
  | Some v => Q (Returned v) (mkState d evs)
  | None => Q (Raised (KeyError k)) (mkState d evs)
  end ->
  wp (getitem k) Q (mkState d evs).
Proof.
  intros <-. unfold wp, getitem. cbn [_result_values].
  destruct (d !! k); exact (fun H => H).
Qed.

Lemma wp_list_append e o Q d evs :
  d !! "errors" = o ->
  match o with
  | Some (ErrorList es) =>
      Q (Returned tt)
        (mkState (<["errors" := ErrorList (es ++ [e])]> d) (Appended e :: evs))
  | _ => Q (Raised AttributeError) (mkState d evs)
  end ->
  wp (list_append e) Q (mkState d evs).
Proof.
  intros <-. unfold wp, list_append. cbn [_result_values events].
  destruct (d !! "errors") as [[]|]; exact (fun H => H).
Qed.

Lemma wp_new_NdtResult o Q d evs :
  NdtResult_from d = o ->
  Q o (mkState d evs) ->
  wp new_NdtResult Q (mkState d evs).
Proof. intros <-. exact (fun H => H). Qed.

Lemma wp_no_driver {R A} answer ev res (Q : outcome A -> driver_state -> Prop) s :
  Q (Raised AttributeError) s ->
  wp (@method R A None answer ev res) Q s.
Proof. exact (fun H => H). Qed.

Section Rules.

Variable clock : nat -> Z.
Variable B : Browser.

Lemma wp_now Q d evs :
  Q (Returned (clock (length evs)))
    (mkState d (ClockRead (clock (length evs)) :: evs)) ->
  wp (now clock) Q (mkState d evs).
Proof. exact (fun H => H). Qed.

Lemma wp_webdriver_new cls Q d evs :
  Q (Returned cls) (mkState d (Launched cls None :: evs)) ->
  (forall e, Q (Raised e) (mkState d (Launched cls (Some e) :: evs))) ->
  wp (webdriver_new B cls) Q (mkState d evs).
Proof.
  intros H1 H2. unfold wp, webdriver_new, tick, log. cbn [events _result_values].
  destruct (on_launch B _ cls); cbn [fst snd]; auto.
Qed.

Lemma wp_get c url Q d evs :
  Q (Returned tt) (mkState d (Navigated url None :: evs)) ->
  (forall e, Q (Raised e) (mkState d (Navigated url (Some e) :: evs))) ->
  wp (get B (Some c) url) Q (mkState d evs).
Proof.
  intros H1 H2. unfold wp, get, method, tick, log. cbn [events _result_values].
  destruct (on_get B _ url); cbn [fst snd completed]; auto.
Qed.

Lemma wp_close c Q d evs :
  Q (Returned tt) (mkState d (Closed None :: evs)) ->
  (forall e, Q (Raised e) (mkState d (Closed (Some e) :: evs))) ->
  wp (close B (Some c)) Q (mkState d evs).
Proof.
  intros H1 H2. unfold wp, close, method, tick, log. cbn [events _result_values].
  destruct (on_close B _); cbn [fst snd completed]; auto.
Qed.

Lemma wp_find_element_by_id c id Q d evs :
  (forall el, Q (Returned el) (mkState d (FoundById id (inr el) :: evs))) ->
  (forall e, Q (Raised e) (mkState d (FoundById id (inl e) :: evs))) ->
  wp (find_element_by_id B (Some c) id) Q (mkState d evs).
Proof.
  intros H1 H2. unfold wp, find_element_by_id, method, tick, log.
  cbn [events _result_values].
  destruct (on_find_element_by_id B _ id); cbn [fst snd produced]; auto.
Qed.

Lemma wp_find_elements_by_xpath c xp Q d evs :
  (forall els, Q (Returned els) (mkState d (FoundByXPath xp (inr els) :: evs))) ->
  (forall e, Q (Raised e) (mkState d (FoundByXPath xp (inl e) :: evs))) ->
  wp (find_elements_by_xpath B (Some c) xp) Q (mkState d evs).
Proof.
  intros H1 H2. unfold wp, find_elements_by_xpath, method, tick, log.
  cbn [events _result_values].
  destruct (on_find_elements_by_xpath B _ xp); cbn [fst snd produced]; auto.
Qed.

Lemma wp_until_visible c el t Q d evs :
  Q (Returned tt) (mkState d (Waited el t None :: evs)) ->
  (forall e, Q (Raised e) (mkState d (Waited el t (Some e) :: evs))) ->
  wp (until_visible B (Some c) el t) Q (mkState d evs).
Proof.
  intros H1 H2. unfold wp, until_visible, method, tick, log.
  cbn [events _result_values].
  destruct (on_until_visible B _ el t); cbn [fst snd completed]; auto.
Qed.

Lemma wp_click el Q d evs :
  Q (Returned tt) (mkState d (Clicked el None :: evs)) ->
  (forall e, Q (Raised e) (mkState d (Clicked el (Some e) :: evs))) ->
  wp (click B el) Q (mkState d evs).
Proof.
  intros H1 H2. unfold wp, click, tick, log. cbn [events _result_values].
  destruct (on_click B _ el); cbn [fst snd completed]; auto.
Qed.

Lemma wp_text el Q d evs :
  (forall t, Q (Returned t) (mkState d (ReadText el (inr t) :: evs))) ->
  (forall e, Q (Raised e) (mkState d (ReadText el (inl e) :: evs))) ->
  wp (text B el) Q (mkState d evs).
Proof.
  intros H1 H2. unfold wp, text, tick, log. cbn [events _result_values].
  destruct (on_text B _ el); cbn [fst snd produced]; auto.
Qed.

End Rules.

(** One step of a run: the rule of the statement at the head of the program,
    with one case per answer of the browser.  Lookups in a dictionary built
    from literal keys are computed. *)
Ltac wp_step :=
  lazymatch goal with
  | |- wp (bind _ _) _ _ => apply wp_bind
  | |- wp (try_except _ _ _) _ _ => apply wp_try_except
  | |- wp (ret _) _ _ => apply wp_ret
  | |- wp (raise _) _ _ => apply wp_raise
  | |- wp (now _) _ _ => apply wp_now; cbn [length]
  | |- wp (setitem _ _) _ _ => apply wp_setitem
  | |- wp (getitem ?k) _ (mkState ?d _) =>
      let o := eval vm_compute in (d !! k) in
      apply (wp_getitem k o); [vm_compute; reflexivity|]
  | |- wp (list_append ?e) _ (mkState ?d _) =>
      let o := eval vm_compute in (d !! "errors") in
      apply (wp_list_append e o); [vm_compute; reflexivity|]
  | |- wp new_NdtResult _ (mkState ?d _) =>
      let o := eval vm_compute in (NdtResult_from d) in
      apply (wp_new_NdtResult o); [vm_compute; reflexivity|]
  | |- wp (webdriver_new _ _) _ _ => apply wp_webdriver_new; [|intros ?]
  | |- wp (get _ (Some _) _) _ _ => apply wp_get; [|intros ?]
  | |- wp (get _ None _) _ _ => apply wp_no_driver
  | |- wp (close _ (Some _)) _ _ => apply wp_close; [|intros ?]
  | |- wp (find_element_by_id _ (Some _) _) _ _ =>
      apply wp_find_element_by_id; intros ?
  | |- wp (find_elements_by_xpath _ (Some _) _) _ _ =>
      apply wp_find_elements_by_xpath; intros ?
  | |- wp (until_visible _ (Some _) _ _) _ _ =>
      apply wp_until_visible; [|intros ?]
  | |- wp (click _ _) _ _ => apply wp_click; [|intros ?]
  | |- wp (text _ _) _ _ => apply wp_text; intros ?
  | |- wp (first_item ?l) _ _ => destruct l; cbn [first_item]
  | |- wp (if ?b then _ else _) _ _ => destruct b eqn:?
  | |- (if ?b then _ else _) =>
      first [ progress cbn [is_TimeoutException is_WebDriverException]
            | destruct b eqn:? ]
  | |- wp (perform_test _ _ _ _ _ _ _) _ _ => unfold perform_test
  | |- wp (set_test_browser _ _) _ _ => unfold set_test_browser
  | |- wp (record_test_in_progress_values _ _ _ _) _ _ =>
      unfold record_test_in_progress_values
  | |- wp (populate_metric_values _ _) _ _ => unfold populate_metric_values
  | |- wp (check_result_metrics _ _ _) _ _ => unfold check_result_metrics
  | |- wp (test_indiv_metric_is_valid _ _ _ _) _ _ =>
      unfold test_indiv_metric_is_valid
  | |- wp (append_TestError _ _) _ _ => unfold append_TestError
  | |- wp (float _ _) _ _ => unfold float
  end.

Ltac wp_steps := repeat first [ progress cbv beta iota | wp_step ].

(** Every run of [perform_test] on a new driver, one goal per way it can
    end; [Hrun] is the equation of the run. *)
Ltac all_runs Hrun :=
  let Q := fresh "Q" in
  let HQ := fresh "HQ" in
  lazymatch type of Hrun with
  | ?m ?s = (?out, ?s') =>
      pattern out, s';
      lazymatch goal with
      | |- ?P out s' =>
          remember P as Q eqn:HQ;
          refine (wp_run m Q s out s' _ Hrun); clear Hrun
      end
  end;
  unfold new_driver; wp_steps; subst Q; cbv beta.

(** The log of a finished run is a known list: compute what it shows. *)
Ltac look H := vm_compute in H; try discriminate H.



(** *** Runs on a driver in any state *)

Lemma since_app d d' new evs :
  since (mkState d evs) (mkState d' (new ++ evs)) = rev new.
Proof.
  unfold since. cbn [events]. rewrite length_app.
  replace (length new + length evs - length evs)%nat with (length new) by lia.
  rewrite firstn_app, Nat.sub_diag, firstn_all. cbn [firstn].
  rewrite app_nil_r. reflexivity.
Qed.

Lemma NdtResult_from_errors d r :
  NdtResult_from d = Returned r -> d !! "errors" = Some (errors r).
Proof.
  unfold NdtResult_from. destruct (decide _); [|discriminate].
  destruct (d !! "start_time"), (d !! "end_time"), (d !! "c2s_start_time"),
    (d !! "s2c_start_time"), (d !! "errors"); try discriminate.
  intros [= <-]. reflexivity.
Qed.

(** Writing a parameter of [NdtResult] into a dictionary that [NdtResult]
    accepts changes that parameter of the result and nothing else. *)
Lemma NdtResult_from_insert key v d r :
  key ∈ NdtResult_parameters ->
  NdtResult_from d = Returned r ->
  NdtResult_from (<[key := v]> d) = Returned (with_field key v r).
Proof.
  intros Hkey H. unfold NdtResult_from in *.
  destruct (decide (dom d ⊆ NdtResult_parameters)) as [Hd|]; [|discriminate H].
  rewrite decide_True
    by (rewrite dom_insert; apply union_least;
        [apply singleton_subseteq_l; exact Hkey | exact Hd]).
  destruct (d !! "start_time") eqn:E1; [|discriminate H].
  destruct (d !! "end_time") eqn:E2; [|discriminate H].
  destruct (d !! "c2s_start_time") eqn:E3; [|discriminate H].
  destruct (d !! "s2c_start_time") eqn:E4; [|discriminate H].
  destruct (d !! "errors") eqn:E5; [|discriminate H].
  injection H as <-.
  unfold NdtResult_parameters in Hkey. set_unfold in Hkey.
  destruct_or!; subst key.
  all: rewrite ?lookup_insert; cbn; rewrite ?E1, ?E2, ?E3, ?E4, ?E5; reflexivity.
Qed.

Lemma NdtResult_from_init : NdtResult_from init_result_values = Returned init_result.
Proof. vm_compute; reflexivity. Qed.

(** A lookup in the dictionary of the driver with entries written over it:
    the entry written last, or what the driver held. *)
Ltac dict_lookup :=
  repeat first [ rewrite lookup_insert_eq
               | rewrite lookup_insert_ne by discriminate ];
  first [ eassumption | reflexivity ].

(** The result built from such a dictionary. *)
Ltac dict_result :=
  repeat (apply NdtResult_from_insert; [vm_compute; reflexivity|]);
  eassumption.

(** One step of a run on a driver whose dictionary is not known. *)
Ltac wp_step_any :=
  lazymatch goal with
  | |- wp (getitem ?k) _ _ => eapply (wp_getitem k); [dict_lookup|]
  | |- wp (list_append ?e) _ _ => eapply (wp_list_append e); [dict_lookup|]
  | |- wp new_NdtResult _ _ => eapply wp_new_NdtResult; [dict_result|]
  | |- _ => wp_step
  end.

Ltac wp_steps_any := repeat first [ progress cbv beta iota | wp_step_any ].

(** The entries that the log [l] has on top of [evs]. *)
Ltac new_events evs l :=
  lazymatch l with
  | ?x :: ?l' => let r := new_events evs l' in constr:(x :: r)
  | _ => constr:(@nil event)
  end.

(** The log of a finished run is the known list on top of the old log. *)
Ltac gained :=
  repeat match goal with
  | |- context [since (mkState ?d ?evs) (mkState ?D ?l)] =>
      let r := new_events evs l in
      change (since (mkState d evs) (mkState D l))
        with (since (mkState d evs) (mkState D (r ++ evs)%list));
      rewrite (since_app d D r evs)
  end.

(** Every run of a program on the state of [Hrun], one goal per way it can
    end: with the lookups computed, and for a dictionary that is not
    known. *)
Ltac runs_of Hrun :=
  let Q := fresh "Q" in
  let HQ := fresh "HQ" in
  lazymatch type of Hrun with
  | ?m ?s = (?out, ?s') =>
      pattern out, s';
      lazymatch goal with
      | |- ?P out s' =>
          remember P as Q eqn:HQ;
          refine (wp_run m Q s out s' _ Hrun); clear Hrun
      end
  end;
  wp_steps; subst Q; cbv beta.

Ltac all_runs_any Hrun :=
  let Q := fresh "Q" in
  let HQ := fresh "HQ" in
  lazymatch type of Hrun with
  | ?m ?s = (?out, ?s') =>
      pattern out, s';
      lazymatch goal with
      | |- ?P out s' =>
          remember P as Q eqn:HQ;
          refine (wp_run m Q s out s' _ Hrun); clear Hrun
      end
  end;
  wp_steps_any; subst Q; cbv beta; gained.


(** *** C7, as amended *)


(** *** C1, as amended *)


(** *** C2, as amended *)



(** *** C3 *)


(** *** C6, as amended *)



(** *** C9 *)

Lemma extends_refl s : extends s s.
Proof. unfold extends. reflexivity. Qed.

Lemma extends_trans s1 s2 s3 : extends s1 s2 -> extends s2 s3 -> extends s1 s3.
Proof. unfold extends. intros H1 H2. etransitivity; eassumption. Qed.

Lemma append_only_same_dict {A} (m : Py A) :
  (forall s, _result_values (snd (m s)) = _result_values s) ->
  append_only m.
Proof. intros H s. unfold extends. rewrite H. reflexivity. Qed.

Lemma append_only_ret {A} (a : A) : append_only (ret a).
Proof. intros s. apply extends_refl. Qed.

Lemma append_only_raise {A} e : append_only (@raise A e).
Proof. intros s. apply extends_refl. Qed.

Lemma append_only_bind {A C} (m : Py A) (k : A -> Py C) :
  append_only m -> (forall a, append_only (k a)) -> append_only (bind m k).
Proof.
  intros Hm Hk s. specialize (Hm s). unfold bind.
  destruct (m s) as [[a|e] s1]; cbn [snd] in *.
  - eapply extends_trans; [exact Hm | apply Hk].
  - exact Hm.
Qed.

Lemma append_only_try_except {A} (m : Py A) handles h :
  append_only m -> (forall e, append_only (h e)) ->
  append_only (try_except m handles h).
Proof.
  intros Hm Hh s. specialize (Hm s). unfold try_except.
  destruct (m s) as [[a|e] s1]; cbn [snd] in *.
  - exact Hm.
  - destruct (handles e); cbn [snd].
    + eapply extends_trans; [exact Hm | apply Hh].
    + exact Hm.
Qed.

Lemma append_only_setitem key v : key <> "errors" -> append_only (setitem key v).
Proof.
  intros Hkey s. unfold extends, setitem, errors_of. cbn [snd _result_values].
  rewrite lookup_insert_ne by exact Hkey. reflexivity.
Qed.

Lemma append_only_list_append e : append_only (list_append e).
Proof.
  intros s. unfold extends, list_append, errors_of.
  destruct (_result_values s !! "errors") as [[| | |es]|] eqn:E;
    cbn [snd _result_values]; rewrite ?E; try reflexivity.
  rewrite lookup_insert_eq. apply prefix_app_r. reflexivity.
Qed.

Lemma append_only_getitem key : append_only (getitem key).
Proof.
  apply append_only_same_dict. intros s. unfold getitem.
  destruct (_result_values s !! key); reflexivity.
Qed.

Lemma append_only_new_NdtResult : append_only new_NdtResult.
Proof. apply append_only_same_dict. reflexivity. Qed.

Lemma append_only_first_item {A} (l : list A) : append_only (first_item l).
Proof. destruct l; [apply append_only_raise | apply append_only_ret]. Qed.

Section AppendOnly.

Variable clock : nat -> Z.
Variable B : Browser.
Variable float_accepts : string -> bool.
Variable str_object : value -> string.

Lemma append_only_now : append_only (now clock).
Proof. apply append_only_same_dict. reflexivity. Qed.

Lemma append_only_webdriver_new cls : append_only (webdriver_new B cls).
Proof. apply append_only_same_dict. reflexivity. Qed.

Lemma append_only_method {R A} driver answer ev (res : R -> outcome A) :
  append_only (method driver answer ev res).
Proof. apply append_only_same_dict. destruct driver; reflexivity. Qed.

Lemma append_only_click el : append_only (click B el).
Proof. apply append_only_same_dict. reflexivity. Qed.

Lemma append_only_text el : append_only (text B el).
Proof. apply append_only_same_dict. reflexivity. Qed.

Lemma append_only_float v : append_only (float float_accepts v).
Proof.
  destruct v; cbn [float]; try apply append_only_raise.
  destruct (float_accepts s); [apply append_only_ret | apply append_only_raise].
Qed.

Lemma append_only_append_TestError message :
  append_only (append_TestError clock message).
Proof.
  unfold append_TestError. apply append_only_bind.
  - apply append_only_getitem.
  - intros [| | |es]; try apply append_only_raise.
    apply append_only_bind; [apply append_only_now|].
    intros t. apply append_only_list_append.
Qed.

End AppendOnly.

Create HintDb append_only.
#[local] Hint Resolve append_only_ret append_only_raise append_only_getitem
  append_only_new_NdtResult append_only_first_item append_only_now
  append_only_webdriver_new append_only_method append_only_click
  append_only_text append_only_float append_only_append_TestError
  append_only_list_append : append_only.
#[local] Hint Unfold get find_element_by_id find_elements_by_xpath close
  until_visible : append_only.

(** The structure of a program is followed down to its primitive statements,
    which the hints settle. *)
Ltac append_only_steps :=
  repeat lazymatch goal with
    | |- append_only (bind _ _) => apply append_only_bind; [|intros ?]
    | |- append_only (try_except _ _ _) =>
        apply append_only_try_except; [|intros ?]
    | |- append_only (setitem _ _) => apply append_only_setitem; discriminate
    | |- append_only (if ?b then _ else _) => destruct b
    | |- append_only (match ?x with Some _ => _ | None => _ end) => destruct x
    | |- append_only _ => solve [autounfold with append_only; auto with append_only]
    end.

(** C9.  The list of errors only grows: whatever the state of the driver,
    after validating one metric, after validating the three of them, and
    after a whole run of [perform_test] — whether it ends normally, on a
    load error, on a timeout or in an exception — the errors that were there
    before are still there, unchanged and in the same places, followed by
    the new ones. *)
Theorem errors_only_appended clock B float_accepts str_object :
  (forall metric,
     append_only (test_indiv_metric_is_valid clock float_accepts str_object metric)) /\
  append_only (check_result_metrics clock float_accepts str_object) /\
  (forall url browser timeout,
     append_only (perform_test clock B float_accepts str_object url browser timeout)).
Proof.
  assert (Hmetric : forall metric,
    append_only (test_indiv_metric_is_valid clock float_accepts str_object metric)).
  { intros metric. unfold test_indiv_metric_is_valid. append_only_steps. }
  assert (Hcheck :
    append_only (check_result_metrics clock float_accepts str_object)).
  { unfold check_result_metrics. append_only_steps. }
  repeat split; try assumption.
  intros url browser timeout.
  unfold perform_test, set_test_browser, record_test_in_progress_values,
    populate_metric_values.
  append_only_steps.
Qed.

(** *** C10, as amended *)

(** C10 (amended).  What validating one metric does is decided by what the
    dictionary holds for it.  A key that was never assigned, which is the
    state of the metrics before they are read from the page, makes the
    lookup raise [KeyError]; a value that is not text, such as [None], makes
    [float] raise [TypeError]; in both cases the exception is not caught, no
    error is recorded and the state is unchanged.  Text that [float] accepts
    leaves the state unchanged, and only text that [float] rejects goes
    through the handler that records an error. *)
Theorem test_indiv_metric_is_valid_cases clock float_accepts str_object metric s :
  match _result_values s !! metric with
  | None =>
      test_indiv_metric_is_valid clock float_accepts str_object metric s
      = (Raised (KeyError metric), s)
  | Some (Text raw) =>
      if float_accepts raw then
        test_indiv_metric_is_valid clock float_accepts str_object metric s
        = (Returned tt, s)
      else
        test_indiv_metric_is_valid clock float_accepts str_object metric s
        = append_TestError clock
            ("illegal value shown for " ++ metric ++ ": " ++ raw) s
  | Some _ =>
      exists msg,
        test_indiv_metric_is_valid clock float_accepts str_object metric s
        = (Raised (TypeError msg), s)
  end.
Proof.
  unfold test_indiv_metric_is_valid, try_except, bind, getitem.
  destruct (_result_values s !! metric) as [[| t | raw | es]|] eqn:E;
    cbn [float raise]; try (eexists; reflexivity); try reflexivity.
  destruct (float_accepts raw); cbn [ret raise]; [reflexivity|].
  rewrite E. reflexivity.
Qed.

(** On a new driver the metrics have not been read: validating one raises
    [KeyError], not [TypeError]. *)
Lemma unread_metric_raises_KeyError :
  _result_values new_driver !! "latency" = None /\
  test_indiv_metric_is_valid ticking decimal_text plain_str "latency" new_driver
  = (Raised (KeyError "latency"), new_driver).
Proof. split; vm_compute; reflexivity. Qed.

(** *** C4: the load error that [perform_test] does not recognise *)

(** [load_url] records every [WebDriverException] raised by the navigation
    and tells its caller that the load failed. *)
Lemma load_url_records_every_WebDriverException clock B cls url errs d evs e :
  on_get B (length evs) url = Some e ->
  is_WebDriverException e = true ->
  fst (load_url clock B (Some cls) url errs (mkState d evs))
  = Returned (false,
              (errs ++ [mkTestError (clock (S (length evs)))
                                    ("Failed to load URL: " ++ url)])%list).
Proof.
  intros Hget He.
  unfold load_url, try_except, bind, get, method, tick, log.
  cbn [events _result_values]. rewrite Hget. cbn [completed]. rewrite He.
  reflexivity.
Qed.

(** In [perform_test] the handler of the navigation looks at the message.
    With the one message it knows, the error is recorded, the browser is
    closed and the result returned.  With any other message nothing is
    recorded and the run goes on to look for the button of the page. *)
Lemma perform_test_load_error
    clock B float_accepts str_object url browser timeout out s' e :
  perform_test clock B float_accepts str_object url browser timeout new_driver
    = (out, s') ->
  nth_error (history s') 1 = Some (Navigated url (Some e)) ->
  is_WebDriverException e = true ->
  close_raised (history s') = false ->
  if String.eqb (msg_of e) "Target URL invalid_url is not well-formed." then
    exists r t,
      out = Returned r /\ errors r = ErrorList [mkTestError t (msg_of e)] /\
      browser_closed (history s') = true
  else
    exists found,
      nth_error (history s') 2 = Some (FoundById "websocketButton" found) /\
      forall err, In (Appended err) (firstn 3 (history s')) -> False.
Proof.
  intros Hrun. all_runs Hrun.
  all: intros Hnav; vm_compute in Hnav; try discriminate Hnav.
  all: injection Hnav as <-; intros He Hclose.
  all: repeat match goal with
              | H : String.eqb (msg_of _) _ = _ |- _ => rewrite H; clear H
              | H : is_WebDriverException ?x = false |- _ =>
                  rewrite H in He; discriminate He
              end.
  all: try (look Hclose; eexists _, _; repeat split; reflexivity).
  all: eexists; split; [reflexivity|];
    intros err Hin; vm_compute in Hin; intuition discriminate.
Qed.

(** C4 (the code at the failing input).  The URL is malformed and the
    navigation raises the [WebDriverException] that says so.  [perform_test]
    records no error, does not return a result and does not close the
    browser: it goes on to the page that did not load and ends in the
    exception of the first missing element. *)
Theorem malformed_url_is_not_recorded :
  history (snd malformed_url_run)
  = [Launched Firefox None;
     Navigated "not_a_url"
       (Some (WebDriverException "Target URL not_a_url is not well-formed."));
     FoundById "websocketButton"
       (inl (NoSuchElementException "Unable to locate element: websocketButton"))] /\
  fst malformed_url_run
  = Raised (NoSuchElementException "Unable to locate element: websocketButton") /\
  errors_of (_result_values (snd malformed_url_run)) = [] /\
  browser_closed (history (snd malformed_url_run)) = false.
Proof. repeat split; vm_compute; reflexivity. Qed.

(** *** C5: the two functions that select a browser *)

(** [create_browser] starts the browser of each of the four names. *)
Lemma create_browser_supported B s :
  create_browser B "firefox" s = webdriver_new B Firefox s /\
  create_browser B "chrome" s = webdriver_new B Chrome s /\
  create_browser B "edge" s = webdriver_new B Edge s /\
  create_browser B "safari" s = webdriver_new B Safari s.
Proof. repeat split; reflexivity. Qed.

(** [create_browser] refuses every other name with a [ValueError], before
    anything is started. *)
Lemma create_browser_unsupported B browser s :
  browser <> "firefox" -> browser <> "chrome" ->
  browser <> "edge" -> browser <> "safari" ->
  create_browser B browser s
  = (Raised (ValueError ("Invalid browser specified: " ++ browser)), s).
Proof.
  intros H1 H2 H3 H4. unfold create_browser, names.FIREFOX, names.CHROME,
    names.EDGE, names.SAFARI.
  apply String.eqb_neq in H1, H2, H3, H4. rewrite H1, H2, H3, H4. reflexivity.
Qed.

(** C5 (the code at the failing inputs).  [set_test_browser] knows firefox
    only.  For chrome, a name its docstring lists, and for a name nobody
    supports, it returns [None] without raising; [perform_test] then fails
    with the [AttributeError] of the first method call on [None]. *)
Theorem set_test_browser_knows_firefox_only B s :
  set_test_browser B "chrome" s = (Returned None, s) /\
  set_test_browser B "edge" s = (Returned None, s) /\
  set_test_browser B "safari" s = (Returned None, s) /\
  set_test_browser B "opera" s = (Returned None, s) /\
  perform_test ticking B decimal_text plain_str "http://ndt.example/"
    "chrome" 20 new_driver
  = (Raised AttributeError, new_driver).
Proof. repeat split; reflexivity. Qed.

(** *** C8 *)

(** C8.  When the bind fails, [async_start] hands the error to its caller
    and leaves the server as it was, so that the port of a new server stays
    unset; when the bind succeeds, [async_start] returns, the server is
    serving and its port is the port of the bound socket. *)
Theorem async_start_port path bind :
  match bind with
  | inl e =>
      ReplayServer.async_start bind (ReplayServer.new_server path)
      = (inl e, ReplayServer.new_server path) /\
      ReplayServer.port
        (snd (ReplayServer.async_start bind (ReplayServer.new_server path)))
      = None
  | inr p =>
      fst (ReplayServer.async_start bind (ReplayServer.new_server path))
      = inr tt /\
      ReplayServer.port
        (snd (ReplayServer.async_start bind (ReplayServer.new_server path)))
      = Some p /\
      ReplayServer.serving
        (snd (ReplayServer.async_start bind (ReplayServer.new_server path)))
      = true
  end.
Proof. destruct bind; repeat split; reflexivity. Qed.

(** ** The sample runs *)








(** In the sample run with the bad latency, the single error is the one for
    latency. *)
Lemma bad_latency_run_errors :
  illegal_value decimal_text "latency" "n/a"
  = ["illegal value shown for latency: n/a"] /\
  illegal_value decimal_text "s2c_throughput" "80.1" = [] /\
  illegal_value decimal_text "c2s_throughput" "12.5" = [].
Proof. repeat split; reflexivity. Qed.



(** ** Further properties of client_wrapper.py *)

(** *** The result is the dictionary *)

Lemma returns_dictionary_new_NdtResult : returns_dictionary new_NdtResult.
Proof. intros s r H. exact H. Qed.

Lemma returns_dictionary_ret_early :
  returns_dictionary_early (r <- new_NdtResult ;; ret (Some r)).
Proof.
  intros s r. unfold bind, new_NdtResult, ret.
  destruct (NdtResult_from (_result_values s)) as [r'|e] eqn:E; cbn [fst snd].
  - intros [= <-]. exact E.
  - discriminate.
Qed.

Lemma returns_dictionary_early_none : returns_dictionary_early (ret None).
Proof. intros s r. discriminate. Qed.

Lemma returns_dictionary_bind {A} (m : Py A) (k : A -> Py NdtResult) :
  (forall a, returns_dictionary (k a)) -> returns_dictionary (bind m k).
Proof.
  intros Hk s r. unfold bind. destruct (m s) as [[a|e] s1].
  - apply Hk.
  - discriminate.
Qed.

Lemma returns_dictionary_early_bind {A} (m : Py A) (k : A -> Py (option NdtResult)) :
  (forall a, returns_dictionary_early (k a)) ->
  returns_dictionary_early (bind m k).
Proof.
  intros Hk s r. unfold bind. destruct (m s) as [[a|e] s1].
  - apply Hk.
  - discriminate.
Qed.

Lemma returns_dictionary_early_try m handles h :
  returns_dictionary_early m ->
  (forall e, returns_dictionary_early (h e)) ->
  returns_dictionary_early (try_except m handles h).
Proof.
  intros Hm Hh s r. specialize (Hm s r). unfold try_except.
  destruct (m s) as [[a|e] s1]; cbn [fst snd] in *.
  - exact Hm.
  - destruct (handles e); [apply Hh | discriminate].
Qed.

Lemma returns_dictionary_after_try m (rest : Py NdtResult) :
  returns_dictionary_early m ->
  returns_dictionary rest ->
  returns_dictionary
    (early <- m ;; match early with Some r => ret r | None => rest end).
Proof.
  intros Hm Hrest s r. specialize (Hm s). unfold bind.
  destruct (m s) as [[[r'|]|e] s1]; cbn [fst snd ret] in *.
  - intros [= <-]. apply Hm. reflexivity.
  - apply Hrest.
  - discriminate.
Qed.

Lemma perform_test_returns_dictionary
    clock B float_accepts str_object url browser timeout :
  returns_dictionary
    (perform_test clock B float_accepts str_object url browser timeout).
Proof.
  unfold perform_test.
  apply returns_dictionary_bind. intros driver.
  apply returns_dictionary_after_try.
  - apply returns_dictionary_early_try.
    + apply returns_dictionary_early_bind. intros _.
      apply returns_dictionary_early_none.
    + intros e. destruct (String.eqb _ _).
      * do 2 (apply returns_dictionary_early_bind; intros _).
        apply returns_dictionary_ret_early.
      * apply returns_dictionary_early_none.
  - do 6 (apply returns_dictionary_bind; intros ?).
    apply returns_dictionary_after_try.
    + apply returns_dictionary_early_try.
      * do 2 (apply returns_dictionary_early_bind; intros _).
        apply returns_dictionary_early_none.
      * intros e.
        do 2 (apply returns_dictionary_early_bind; intros _).
        apply returns_dictionary_ret_early.
    + do 2 (apply returns_dictionary_bind; intros _).
      apply returns_dictionary_new_NdtResult.
Qed.

(** The result shows what the dictionary holds, whatever the state the
    driver was in: a result that [perform_test] returns is the one built
    from the dictionary as the run left it. *)
Theorem perform_test_result_is_final_dictionary
    clock B float_accepts str_object url browser timeout s r s' :
  perform_test clock B float_accepts str_object url browser timeout s
    = (Returned r, s') ->
  NdtResult_from (_result_values s') = Returned r.
Proof.
  intros Hrun.
  pose proof (perform_test_returns_dictionary clock B float_accepts str_object
                url browser timeout s r) as H.
  rewrite Hrun in H. apply H. reflexivity.
Qed.

(** *** Errors of earlier runs *)

Lemma keeps_errors_same_dict {A} (m : Py A) :
  (forall s, _result_values (snd (m s)) = _result_values s) ->
  keeps_errors m.
Proof.
  intros H s es Hes. exists []. rewrite H, app_nil_r. exact Hes.
Qed.

Lemma keeps_errors_bind {A C} (m : Py A) (k : A -> Py C) :
  keeps_errors m -> (forall a, keeps_errors (k a)) -> keeps_errors (bind m k).
Proof.
  intros Hm Hk s es Hes. destruct (Hm s es Hes) as [more1 H1]. unfold bind.
  destruct (m s) as [[a|e] s1]; cbn [snd] in *.
  - destruct (Hk a s1 _ H1) as [more2 H2].
    exists (more1 ++ more2)%list. rewrite app_assoc. exact H2.
  - exists more1. exact H1.
Qed.

Lemma keeps_errors_try_except {A} (m : Py A) handles h :
  keeps_errors m -> (forall e, keeps_errors (h e)) ->
  keeps_errors (try_except m handles h).
Proof.
  intros Hm Hh s es Hes. destruct (Hm s es Hes) as [more1 H1].
  unfold try_except. destruct (m s) as [[a|e] s1]; cbn [snd] in *.
  - exists more1. exact H1.
  - destruct (handles e); cbn [snd].
    + destruct (Hh e s1 _ H1) as [more2 H2].
      exists (more1 ++ more2)%list. rewrite app_assoc. exact H2.
    + exists more1. exact H1.
Qed.

Lemma keeps_errors_setitem key v : key <> "errors" -> keeps_errors (setitem key v).
Proof.
  intros Hkey s es Hes. exists []. unfold setitem. cbn [snd _result_values].
  rewrite lookup_insert_ne by exact Hkey. rewrite app_nil_r. exact Hes.
Qed.

Lemma keeps_errors_list_append e : keeps_errors (list_append e).
Proof.
  intros s es Hes. exists [e]. unfold list_append. rewrite Hes.
  cbn [snd _result_values]. apply lookup_insert_eq.
Qed.

Ltac keeps_errors_steps :=
  repeat lazymatch goal with
    | |- keeps_errors (bind _ _) => apply keeps_errors_bind; [|intros ?]
    | |- keeps_errors (try_except _ _ _) =>
        apply keeps_errors_try_except; [|intros ?]
    | |- keeps_errors (setitem _ _) => apply keeps_errors_setitem; discriminate
    | |- keeps_errors (list_append _) => apply keeps_errors_list_append
    | |- keeps_errors (if ?b then _ else _) => destruct b
    | |- keeps_errors (match ?x with Some _ => _ | None => _ end) => destruct x
    | |- keeps_errors (match ?x with ErrorList _ => _ | _ => _ end) => destruct x
    | |- keeps_errors (match ?x with Text _ => _ | _ => _ end) => destruct x
    | |- keeps_errors (getitem ?k) =>
        apply keeps_errors_same_dict; intros ?; unfold getitem;
        destruct (_ !! k); reflexivity
    | |- keeps_errors (method ?d _ _ _) =>
        apply keeps_errors_same_dict; intros ?; destruct d; reflexivity
    | |- keeps_errors (first_item ?l) =>
        apply keeps_errors_same_dict; intros ?; destruct l; reflexivity
    | |- keeps_errors _ => apply keeps_errors_same_dict; intros ?; reflexivity
    end.

Lemma perform_test_keeps_errors
    clock B float_accepts str_object url browser timeout :
  keeps_errors
    (perform_test clock B float_accepts str_object url browser timeout).
Proof.
  unfold perform_test, set_test_browser, record_test_in_progress_values,
    populate_metric_values, check_result_metrics, test_indiv_metric_is_valid,
    append_TestError, float, get, find_element_by_id, find_elements_by_xpath,
    close, until_visible.
  keeps_errors_steps.
Qed.

(** The list of errors belongs to the driver object, not to the run: when
    [perform_test] is called on a driver that already holds the errors [es]
    and returns, the result lists [es] again, followed by the errors of this
    run. *)
Theorem perform_test_returns_earlier_errors
    clock B float_accepts str_object url browser timeout s es r s' :
  _result_values s !! "errors" = Some (ErrorList es) ->
  perform_test clock B float_accepts str_object url browser timeout s
    = (Returned r, s') ->
  exists more, errors r = ErrorList (es ++ more).
Proof.
  intros Hes Hrun.
  destruct (perform_test_keeps_errors clock B float_accepts str_object url
              browser timeout s es Hes) as [more Hmore].
  pose proof (perform_test_returns_dictionary clock B float_accepts str_object
                url browser timeout s r) as Hdict.
  rewrite Hrun in Hmore, Hdict. cbn [fst snd] in *.
  apply NdtResult_from_errors in Hdict; [|reflexivity].
  rewrite Hmore in Hdict. injection Hdict as <-. exists more. reflexivity.
Qed.

(** *** The dictionary stays one that [NdtResult] accepts *)

(** A driver object stays usable: when [NdtResult] accepts the dictionary
    and the errors are a list before a run of [perform_test], both hold
    after it, however the run ends.  They hold on a new driver, so they hold
    in every state that calls of [perform_test] can reach from one. *)
Theorem perform_test_keeps_dictionary_accepted
    clock B float_accepts str_object url browser timeout s r0 es out s' :
  NdtResult_from (_result_values s) = Returned r0 ->
  errors r0 = ErrorList es ->
  perform_test clock B float_accepts str_object url browser timeout s
    = (out, s') ->
  exists r es',
    NdtResult_from (_result_values s') = Returned r /\
    errors r = ErrorList es'.
Proof.
  intros Hwf Hes Hrun. destruct s as [d evs]. cbn [_result_values] in Hwf.
  pose proof (NdtResult_from_errors _ _ Hwf) as Herr. rewrite Hes in Herr.
  all_runs_any Hrun.
  all: eexists _, _; split; [cbn [_result_values]; dict_result|];
    first [ exact Hes | reflexivity ].
Qed.

(** *** Which keys a step writes *)

Lemma touches_only_same_dict {A} keys (m : Py A) :
  (forall s, _result_values (snd (m s)) = _result_values s) ->
  touches_only keys m.
Proof. intros H s key _. rewrite H. reflexivity. Qed.

Lemma touches_only_bind {A C} keys (m : Py A) (k : A -> Py C) :
  touches_only keys m -> (forall a, touches_only keys (k a)) ->
  touches_only keys (bind m k).
Proof.
  intros Hm Hk s key Hkey. specialize (Hm s key Hkey). unfold bind.
  destruct (m s) as [[a|e] s1]; cbn [snd] in *.
  - rewrite (Hk a s1 key Hkey). exact Hm.
  - exact Hm.
Qed.

Lemma touches_only_try_except {A} keys (m : Py A) handles h :
  touches_only keys m -> (forall e, touches_only keys (h e)) ->
  touches_only keys (try_except m handles h).
Proof.
  intros Hm Hh s key Hkey. specialize (Hm s key Hkey). unfold try_except.
  destruct (m s) as [[a|e] s1]; cbn [snd] in *.
  - exact Hm.
  - destruct (handles e); cbn [snd].
    + rewrite (Hh e s1 key Hkey). exact Hm.
    + exact Hm.
Qed.

Lemma touches_only_setitem keys k v : In k keys -> touches_only keys (setitem k v).
Proof.
  intros Hin s key Hkey. unfold setitem. cbn [snd _result_values].
  apply lookup_insert_ne. intros ->. exact (Hkey Hin).
Qed.

Lemma touches_only_list_append keys e :
  In "errors" keys -> touches_only keys (list_append e).
Proof.
  intros Hin s key Hkey. unfold list_append.
  destruct (_result_values s !! "errors") as [[| | |es]|];
    cbn [snd _result_values]; try reflexivity.
  apply lookup_insert_ne. intros <-. exact (Hkey Hin).
Qed.

Ltac touches_only_steps :=
  repeat lazymatch goal with
    | |- touches_only _ (bind _ _) => apply touches_only_bind; [|intros ?]
    | |- touches_only _ (try_except _ _ _) =>
        apply touches_only_try_except; [|intros ?]
    | |- touches_only _ (setitem _ _) =>
        apply touches_only_setitem; cbn; tauto
    | |- touches_only _ (list_append _) =>
        apply touches_only_list_append; cbn; tauto
    | |- touches_only _ (if ?b then _ else _) => destruct b
    | |- touches_only _ (match ?x with Some _ => _ | None => _ end) =>
        destruct x
    | |- touches_only _ (match ?x with ErrorList _ => _ | _ => _ end) =>
        destruct x
    | |- touches_only _ (match ?x with Text _ => _ | _ => _ end) => destruct x
    | |- touches_only _ (getitem ?k) =>
        apply touches_only_same_dict; intros ?; unfold getitem;
        destruct (_ !! k); reflexivity
    | |- touches_only _ (method ?d _ _ _) =>
        apply touches_only_same_dict; intros ?; destruct d; reflexivity
    | |- touches_only _ (first_item ?l) =>
        apply touches_only_same_dict; intros ?; destruct l; reflexivity
    | |- touches_only _ _ =>
        apply touches_only_same_dict; intros ?; reflexivity
    end.

(** Each step of a run writes its own keys and no other, whatever the state
    and however the step ends: the phase waits write the three phase
    timestamps, the extraction writes the three metrics, the validation
    writes the errors, and a whole run writes start_time besides these; no
    other key is created, changed or removed. *)
Theorem steps_write_their_own_keys clock B float_accepts str_object :
  (forall driver timeout,
     touches_only timestamp_keys
       (record_test_in_progress_values clock B driver timeout)) /\
  (forall driver, touches_only metric_keys (populate_metric_values B driver)) /\
  touches_only ["errors"] (check_result_metrics clock float_accepts str_object) /\
  (forall url browser timeout,
     touches_only ("start_time" :: "errors" :: timestamp_keys ++ metric_keys)
       (perform_test clock B float_accepts str_object url browser timeout)).
Proof.
  repeat split; intros;
    unfold perform_test, set_test_browser, record_test_in_progress_values,
      populate_metric_values, check_result_metrics, test_indiv_metric_is_valid,
      append_TestError, float, get, find_element_by_id, find_elements_by_xpath,
      close, until_visible, timestamp_keys, metric_keys;
    touches_only_steps.
Qed.

(** *** Validation on any state *)

Lemma test_indiv_metric_is_valid_text
    clock float_accepts str_object metric raw s es :
  _result_values s !! metric = Some (Text raw) ->
  _result_values s !! "errors" = Some (ErrorList es) ->
  exists new s',
    test_indiv_metric_is_valid clock float_accepts str_object metric s
    = (Returned tt, s') /\
    _result_values s' !! "errors" = Some (ErrorList (es ++ new)) /\
    map message new = illegal_value float_accepts metric raw /\
    (forall key, key <> "errors" ->
       _result_values s' !! key = _result_values s !! key) /\
    (new = [] -> s' = s).
Proof.
  intros Hm He.
  unfold test_indiv_metric_is_valid, try_except, bind, getitem, illegal_value.
  rewrite Hm. cbn [float]. destruct (float_accepts raw); cbn [ret raise].
  - exists [], s. rewrite app_nil_r. repeat split; auto.
  - rewrite Hm. unfold append_TestError, bind, getitem. rewrite He.
    unfold now, list_append, log. cbn [_result_values events]. rewrite He.
    eexists [_], _. split; [reflexivity|]. cbn [_result_values].
    split; [apply lookup_insert_eq|]. split; [reflexivity|].
    split; [|discriminate].
    intros key Hkey. apply lookup_insert_ne. congruence.
Qed.

(** Validation of the three metrics on any state in which they hold text
    and ['errors'] holds a list: it returns, the list grows by one error per
    rejected text, in the order latency, s2c_throughput, c2s_throughput,
    each naming its metric and showing the raw text, every other key keeps
    its value, and when no text is rejected the state is not touched at
    all. *)
Theorem check_result_metrics_on_texts
    clock float_accepts str_object s lat down up es :
  _result_values s !! "latency" = Some (Text lat) ->
  _result_values s !! "s2c_throughput" = Some (Text down) ->
  _result_values s !! "c2s_throughput" = Some (Text up) ->
  _result_values s !! "errors" = Some (ErrorList es) ->
  exists new s',
    check_result_metrics clock float_accepts str_object s = (Returned tt, s') /\
    _result_values s' !! "errors" = Some (ErrorList (es ++ new)) /\
    map message new =
      (illegal_value float_accepts "latency" lat ++
       illegal_value float_accepts "s2c_throughput" down ++
       illegal_value float_accepts "c2s_throughput" up)%list /\
    (forall key, key <> "errors" ->
       _result_values s' !! key = _result_values s !! key) /\
    (new = [] -> s' = s).
Proof.
  intros Hlat Hdown Hup He.
  destruct (test_indiv_metric_is_valid_text clock float_accepts str_object
              "latency" lat s es Hlat He)
    as (n1 & s1 & R1 & E1 & M1 & F1 & Z1).
  assert (Hdown1 : _result_values s1 !! "s2c_throughput" = Some (Text down))
    by (rewrite F1 by discriminate; exact Hdown).
  destruct (test_indiv_metric_is_valid_text clock float_accepts str_object
              "s2c_throughput" down s1 _ Hdown1 E1)
    as (n2 & s2 & R2 & E2 & M2 & F2 & Z2).
  assert (Hup2 : _result_values s2 !! "c2s_throughput" = Some (Text up))
    by (rewrite F2, F1 by discriminate; exact Hup).
  destruct (test_indiv_metric_is_valid_text clock float_accepts str_object
              "c2s_throughput" up s2 _ Hup2 E2)
    as (n3 & s3 & R3 & E3 & M3 & F3 & Z3).
  exists (n1 ++ n2 ++ n3)%list, s3.
  split. { unfold check_result_metrics, bind. rewrite R1, R2. exact R3. }
  split. { rewrite E3. rewrite <- !app_assoc. reflexivity. }
  split. { rewrite !map_app, M1, M2, M3. reflexivity. }
  split. { intros key Hkey. rewrite F3, F2, F1 by exact Hkey. reflexivity. }
  intros Hnil. apply app_eq_nil in Hnil as [H1 Hnil].
  apply app_eq_nil in Hnil as [H2 H3].
  rewrite (Z3 H3), (Z2 H2), (Z1 H1). reflexivity.
Qed.

(** Validation stops at the first metric that is not there: when latency
    was never stored, [check_result_metrics] raises [KeyError] at once; the
    throughputs are not looked at and the state is as before. *)
Theorem check_result_metrics_without_latency clock float_accepts str_object s :
  _result_values s !! "latency" = None ->
  check_result_metrics clock float_accepts str_object s
  = (Raised (KeyError "latency"), s).
Proof.
  intros H.
  unfold check_result_metrics, test_indiv_metric_is_valid, try_except, bind,
    getitem.
  rewrite H. reflexivity.
Qed.

(** *** Unsupported browsers *)

(** With any browser name other than the exact string firefox,
    [perform_test] starts no browser and changes nothing: it raises the
    [AttributeError] of the call of [get] on [None], whatever the state. *)
Theorem perform_test_other_browser
    clock B float_accepts str_object url browser timeout s :
  browser <> "firefox" ->
  perform_test clock B float_accepts str_object url browser timeout s
  = (Raised AttributeError, s).
Proof.
  intros H. apply String.eqb_neq in H.
  unfold perform_test, set_test_browser, bind. rewrite H. reflexivity.
Qed.

(** ** Further properties of browser_client_common.py *)

(** [load_url] lets no Selenium exception out: whatever it raises is not a
    [WebDriverException]. *)
Theorem load_url_raises_no_WebDriverException
    clock B driver url errs s e s' :
  load_url clock B driver url errs s = (Raised e, s') ->
  is_WebDriverException e = false.
Proof.
  unfold load_url, try_except, bind, get, method, results_TestError, now, ret.
  destruct driver as [cls|]; cbn [raise].
  - destruct (on_get B (tick s) url) as [e0|]; cbn [completed].
    + destruct (is_WebDriverException e0) eqn:E.
      * discriminate.
      * intros [= <- _]. exact E.
    + discriminate.
  - intros [= <- _]. reflexivity.
Qed.

(** What [load_url] returns tells what it did to the list of errors: with
    [True] the list is as it was and the navigation completed; with [False]
    the list has exactly one more entry, at its end, whose message is
    'Failed to load URL: ' followed by the URL. *)
Theorem load_url_result clock B driver url errs s ok errs' s' :
  load_url clock B driver url errs s = (Returned (ok, errs'), s') ->
  (ok = true /\ errs' = errs /\ events s' = Navigated url None :: events s) \/
  (ok = false /\
   exists t, errs' = (errs ++ [mkTestError t ("Failed to load URL: " ++ url)])%list).
Proof.
  unfold load_url, try_except, bind, get, method, results_TestError, now, ret,
    ERROR_FAILED_TO_LOAD_URL_FORMAT.
  destruct driver as [cls|]; cbn [raise]; [|discriminate].
  destruct (on_get B (tick s) url) as [e0|]; cbn [completed].
  - destruct (is_WebDriverException e0); [|discriminate].
    intros [= <- <- _]. right. split; [reflexivity|]. eexists. reflexivity.
  - intros [= <- <- <-]. left. repeat split; reflexivity.
Qed.

(** *** The phase waits and the extraction, on any state *)

(** Every run of a program from a given state, one goal per way it can
    end. *)
(** The extraction stores, under c2s_throughput, s2c_throughput and latency,
    the texts of the elements upload-speed, download-speed and latency, read
    in that order, and changes nothing else.  It is not atomic: when it
    raises, the exception is the one of the last browser command and latency
    has not been assigned, whatever was stored for the throughputs before. *)
Theorem populate_metric_values_stores_page_texts B cls d evs out s' :
  populate_metric_values B (Some cls) (mkState d evs) = (out, s') ->
  match out with
  | Returned _ =>
      exists e1 t1 e2 t2 e3 t3,
        events s' =
          ([Assigned "latency" (Text t3); ReadText e3 (inr t3);
            FoundById "latency" (inr e3);
            Assigned "s2c_throughput" (Text t2); ReadText e2 (inr t2);
            FoundById "download-speed" (inr e2);
            Assigned "c2s_throughput" (Text t1); ReadText e1 (inr t1);
            FoundById "upload-speed" (inr e1)] ++ evs)%list /\
        _result_values s' =
          <["latency" := Text t3]>
            (<["s2c_throughput" := Text t2]> (<["c2s_throughput" := Text t1]> d))
  | Raised e =>
      _result_values s' !! "latency" = d !! "latency" /\
      exists ev rest, events s' = ev :: rest /\ raised_by ev = Some e
  end.
Proof.
  intros Hrun. runs_of Hrun.
  all: try (eexists _, _, _, _, _, _; split; reflexivity).
  all: cbn [_result_values events]; split;
    [ rewrite ?lookup_insert_ne by discriminate; reflexivity
    | eexists _, _; split; reflexivity ].
Qed.


(** *** How a run on a new driver can end *)

Lemma perform_test_endings
    clock B float_accepts str_object url browser timeout out s' :
  perform_test clock B float_accepts str_object url browser timeout new_driver
    = (out, s') ->
  (forall e, out = Raised e ->
     match events s' with
     | [] => e = AttributeError
     | ev :: _ =>
         raised_by ev = Some e \/ (e = IndexError /\ matched_nothing [ev] = true)
     end) /\
  (matched_nothing (history s') = true ->
   out = Raised IndexError /\
   browser_closed (history s') = false /\
   errors_of (_result_values s') = []) /\
  (forall up e,
     texts_read (history s') = [inr up; inl e] ->
     is_TimeoutException e = true ->
     close_raised (history s') = false ->
     exists r t t3,
       out = Returned r /\
       errors r = ErrorList [mkTestError t timeout_message] /\
       c2s_throughput r = Text up /\ s2c_throughput r = PyNone /\
       latency r = PyNone /\ end_time r = Datetime t3).
Proof.
  intros Hrun. all_runs Hrun.
  all: split;
    [ intros e' He'; try discriminate He'; injection He' as <-;
      cbn [events]; first [ reflexivity | left; reflexivity
                          | right; split; reflexivity ] |].
  all: split;
    [ intros Hnone; look Hnone; repeat split; vm_compute; reflexivity |].
  all: intros up e' Htexts; look Htexts.
  all: injection Htexts as -> ->; intros He' Hclose;
    try (rewrite He' in *; discriminate).
  all: look Hclose.
  all: eexists _, _, _; repeat split; reflexivity.
Qed.

(** An exception that [perform_test] raises on a new driver is never of its
    own making, except for two: it is the exception that the last browser
    command of the log raised, or the [IndexError] of taking the first of
    no matching elements, or the [AttributeError] of a run without browser.
    In particular the validation and the building of the result never
    raise. *)
Theorem perform_test_raises_what_the_browser_raised
    clock B float_accepts str_object url browser timeout e s' :
  perform_test clock B float_accepts str_object url browser timeout new_driver
    = (Raised e, s') ->
  match events s' with
  | [] => e = AttributeError
  | ev :: _ =>
      raised_by ev = Some e \/ (e = IndexError /\ matched_nothing [ev] = true)
  end.
Proof.
  intros Hrun. apply (perform_test_endings _ _ _ _ _ _ _ _ _ Hrun). reflexivity.
Qed.

(** When one of the XPath lookups of a run on a new driver matches no
    element, [perform_test] raises [IndexError]: no error is recorded and the
    browser is not closed. *)
Theorem perform_test_no_matching_element
    clock B float_accepts str_object url browser timeout out s' :
  perform_test clock B float_accepts str_object url browser timeout new_driver
    = (out, s') ->
  matched_nothing (history s') = true ->
  out = Raised IndexError /\
  browser_closed (history s') = false /\
  errors_of (_result_values s') = [].
Proof.
  intros Hrun. apply (perform_test_endings _ _ _ _ _ _ _ _ _ Hrun).
Qed.


(** ** Properties of public_test.py *)

Section PublicTestFacts.

Variable Driver : Type.
Variable Result : Type.
Variable driver_perform_test : Driver -> outcome Result * Driver.
Variable str_result : Result -> string.

Lemma iterate_over_seq first count driver printed out driver' printed' :
  iterate_over Driver Result driver_perform_test str_result
    (seq first count) driver printed = (out, (driver', printed')) ->
  match out with
  | Returned _ =>
      length printed' = (length printed + 2 * count)%nat /\
      driver' = Nat.iter count (fun d => snd (driver_perform_test d)) driver
  | Raised e =>
      exists k, (k < count)%nat /\
        fst (driver_perform_test
               (Nat.iter k (fun d => snd (driver_perform_test d)) driver))
        = Raised e /\
        length printed' = (length printed + 2 * k + 1)%nat /\
        nth_error printed' (length printed + 2 * k)
        = Some (starting_iteration (first + k + 1)) /\
        driver' = Nat.iter (S k) (fun d => snd (driver_perform_test d)) driver
  end.
Proof.
  revert first driver printed.
  induction count as [|count IH]; intros first driver printed;
    cbn [seq iterate_over].
  - intros [= <- <- <-]. split; [lia | reflexivity].
  - destruct (driver_perform_test driver) as [[result|e] d1] eqn:E.
    + intros H. apply IH in H. destruct out.
      * destruct H as [Hlen Hd]. rewrite !length_app in Hlen.
        cbn [length] in Hlen.
        split; [lia|]. rewrite Nat.iter_succ_r. cbv beta. rewrite E. exact Hd.
      * destruct H as (k & Hk & He & Hlen & Hnth & Hd).
        rewrite !length_app in Hlen, Hnth. cbn [length] in Hlen, Hnth.
        exists (S k). split; [lia|]. split.
        { rewrite Nat.iter_succ_r. cbv beta. rewrite E. exact He. }
        split; [lia|].
        split.
        -- replace (length printed + 2 * S k)%nat
             with (length printed + 1 + 1 + 2 * k)%nat by lia.
           rewrite Hnth. do 2 f_equal. lia.
        -- rewrite Nat.iter_succ_r. cbv beta. rewrite E. exact Hd.
    + intros [= <- <- <-]. exists 0%nat. split; [lia|].
      split; [cbn [Nat.iter nat_rect]; rewrite E; reflexivity|].
      rewrite length_app. cbn [length]. split; [lia|]. split.
      * rewrite Nat.add_0_r, Nat.add_0_r, nth_error_app2 by lia.
        rewrite Nat.sub_diag. reflexivity.
      * cbn [Nat.iter nat_rect]. rewrite E. reflexivity.
Qed.

(** [_run_test_iterations] uses one driver object for all iterations, each
    test starting in the state the one before left.  When no test raises,
    it makes exactly [iterations] tests (none when the number is not
    positive) and executes two [print] statements per test, the
    announcement and the result.  When test k+1 raises, the loop stops
    there: that exception goes to the caller, 2k+1 [print] statements were
    executed, and the last of them announced the iteration that failed. *)
Theorem _run_test_iterations_runs
    driver iterations output_dir out driver' printed :
  _run_test_iterations Driver Result driver_perform_test str_result
    driver iterations output_dir = (out, (driver', printed)) ->
  match out with
  | Returned _ =>
      length printed = (2 * Z.to_nat iterations)%nat /\
      driver' = Nat.iter (Z.to_nat iterations)
                  (fun d => snd (driver_perform_test d)) driver
  | Raised e =>
      exists k, (k < Z.to_nat iterations)%nat /\
        fst (driver_perform_test
               (Nat.iter k (fun d => snd (driver_perform_test d)) driver))
        = Raised e /\
        length printed = (2 * k + 1)%nat /\
        nth_error printed (2 * k) = Some (starting_iteration (k + 1)) /\
        driver' = Nat.iter (S k) (fun d => snd (driver_perform_test d)) driver
  end.
Proof.
  unfold _run_test_iterations, range. intros H.
  apply iterate_over_seq in H. cbn [length Nat.add] in H. exact H.
Qed.

End PublicTestFacts.

(** ** More sample runs *)

Lemma perform_test_result_is_final_dictionary_witness :
  exists r,
    fst complete_run = Returned r /\
    NdtResult_from (_result_values (snd complete_run)) = Returned r.
Proof.
  eexists. split; [vm_compute; reflexivity|].
  apply (perform_test_result_is_final_dictionary ticking
           (page "12.5" "80.1" "23") decimal_text plain_str
           "http://ndt.example:7123/" "firefox" 20 new_driver _
           (snd complete_run)).
  vm_compute; reflexivity.
Defined.

Lemma perform_test_returns_earlier_errors_witness :
  exists r more,
    fst second_run = Returned r /\
    errors r = ErrorList ([mkTestError 1014 timeout_message] ++ more).
Proof.
  eexists. 
  assert (H : exists more,
             errors (mkNdtResult (Datetime 1023) (Datetime 1035) (Datetime 1027)
                       (Datetime 1031)
                       (ErrorList [mkTestError 1014 timeout_message])
                       (Text "23") (Text "12.5") (Text "80.1"))
             = ErrorList ([mkTestError 1014 timeout_message] ++ more)).
  { apply (perform_test_returns_earlier_errors ticking
             (page "12.5" "80.1" "23") decimal_text plain_str
             "http://ndt.example:7123/" "firefox" 20
             (snd stalled_download_run) _ _ (snd second_run)).
    - vm_compute; reflexivity.
    - vm_compute; reflexivity. }
  destruct H as [more H]. exists more. split; [vm_compute; reflexivity | exact H].
Defined.

Lemma check_result_metrics_on_texts_witness :
  exists new s',
    check_result_metrics ticking decimal_text plain_str (snd bad_latency_run)
    = (Returned tt, s') /\
    _result_values s' !! "errors"
    = Some (ErrorList
              ([mkTestError 1029 "illegal value shown for latency: n/a"] ++ new)) /\
    map message new =
      (illegal_value decimal_text "latency" "n/a" ++
       illegal_value decimal_text "s2c_throughput" "80.1" ++
       illegal_value decimal_text "c2s_throughput" "12.5")%list /\
    (forall key, key <> "errors" ->
       _result_values s' !! key = _result_values (snd bad_latency_run) !! key) /\
    (new = [] -> s' = snd bad_latency_run).
Proof.
  apply (check_result_metrics_on_texts ticking decimal_text plain_str
           (snd bad_latency_run) "n/a" "80.1" "12.5").
  - vm_compute; reflexivity.
  - vm_compute; reflexivity.
  - vm_compute; reflexivity.
  - vm_compute; reflexivity.
Defined.

Lemma check_result_metrics_without_latency_witness :
  check_result_metrics ticking decimal_text plain_str new_driver
  = (Raised (KeyError "latency"), new_driver).
Proof.
  apply (check_result_metrics_without_latency ticking decimal_text plain_str
           new_driver).
  vm_compute; reflexivity.
Defined.

Lemma perform_test_other_browser_witness :
  perform_test ticking (page "12.5" "80.1" "23") decimal_text plain_str
    "http://ndt.example:7123/" "Firefox" 20 new_driver
  = (Raised AttributeError, new_driver).
Proof.
  apply (perform_test_other_browser ticking (page "12.5" "80.1" "23")
           decimal_text plain_str "http://ndt.example:7123/" "Firefox" 20
           new_driver).
  discriminate.
Defined.

Lemma create_browser_unsupported_witness :
  create_browser (page "12.5" "80.1" "23") "Firefox" new_driver
  = (Raised (ValueError "Invalid browser specified: Firefox"), new_driver).
Proof.
  apply (create_browser_unsupported (page "12.5" "80.1" "23") "Firefox"
           new_driver); discriminate.
Defined.

Lemma load_url_raises_no_WebDriverException_witness :
  load_url ticking (page "12.5" "80.1" "23") None "http://ndt.example:7123/" []
    new_driver
  = (Raised AttributeError, new_driver) /\
  is_WebDriverException AttributeError = false.
Proof.
  split; [vm_compute; reflexivity|].
  apply (load_url_raises_no_WebDriverException ticking
           (page "12.5" "80.1" "23") None "http://ndt.example:7123/" []
           new_driver AttributeError new_driver).
  vm_compute; reflexivity.
Defined.

Lemma load_url_result_witness :
  exists t,
    [mkTestError 1001 "Failed to load URL: not_a_url"]
    = ([] ++ [mkTestError t ("Failed to load URL: " ++ "not_a_url")])%list.
Proof.
  destruct (load_url_result ticking
              (unreachable "Target URL not_a_url is not well-formed.")
              (Some Firefox) "not_a_url" [] new_driver false
              [mkTestError 1001 "Failed to load URL: not_a_url"]
              (snd (load_url ticking
                      (unreachable "Target URL not_a_url is not well-formed.")
                      (Some Firefox) "not_a_url" [] new_driver)))
    as [[H _]|[_ H]].
  - vm_compute; reflexivity.
  - discriminate H.
  - exact H.
Defined.

Lemma populate_metric_values_stores_page_texts_witness :
  exists e1 t1 e2 t2 e3 t3,
    events (snd (populate_metric_values (page "12.5" "80.1" "23")
                   (Some Firefox) new_driver)) =
      ([Assigned "latency" (Text t3); ReadText e3 (inr t3);
        FoundById "latency" (inr e3);
        Assigned "s2c_throughput" (Text t2); ReadText e2 (inr t2);
        FoundById "download-speed" (inr e2);
        Assigned "c2s_throughput" (Text t1); ReadText e1 (inr t1);
        FoundById "upload-speed" (inr e1)] ++ [])%list /\
    _result_values (snd (populate_metric_values (page "12.5" "80.1" "23")
                           (Some Firefox) new_driver)) =
      <["latency" := Text t3]>
        (<["s2c_throughput" := Text t2]>
           (<["c2s_throughput" := Text t1]> init_result_values)).
Proof.
  apply (populate_metric_values_stores_page_texts (page "12.5" "80.1" "23")
           Firefox init_result_values [] (Returned tt)).
  vm_compute; reflexivity.
Defined.


Lemma perform_test_raises_what_the_browser_raised_witness :
  match events (snd missing_button_run) with
  | [] =>
      NoSuchElementException "Unable to locate element: websocketButton"
      = AttributeError
  | ev :: _ =>
      raised_by ev
      = Some (NoSuchElementException "Unable to locate element: websocketButton")
      \/ (NoSuchElementException "Unable to locate element: websocketButton"
          = IndexError /\ matched_nothing [ev] = true)
  end.
Proof.
  apply (perform_test_raises_what_the_browser_raised ticking
           (page_without_button "12.5" "80.1" "23") decimal_text plain_str
           "http://ndt.example:7123/" "firefox" 20).
  vm_compute; reflexivity.
Defined.

Lemma perform_test_no_matching_element_witness :
  fst no_start_button_run = Raised IndexError /\
  browser_closed (history (snd no_start_button_run)) = false /\
  errors_of (_result_values (snd no_start_button_run)) = [].
Proof.
  apply (perform_test_no_matching_element ticking
           (page_without_start_button "12.5" "80.1" "23") decimal_text
           plain_str "http://ndt.example:7123/" "firefox" 20).
  - vm_compute; reflexivity.
  - vm_compute; reflexivity.
Defined.


Lemma perform_test_load_error_witness :
  exists r t,
    fst invalid_url_run = Returned r /\
    errors r
    = ErrorList [mkTestError t "Target URL invalid_url is not well-formed."] /\
    browser_closed (history (snd invalid_url_run)) = true.
Proof.
  apply (perform_test_load_error ticking
           (unreachable "Target URL invalid_url is not well-formed.")
           decimal_text plain_str "invalid_url" "firefox" 20
           (fst invalid_url_run) (snd invalid_url_run)
           (WebDriverException "Target URL invalid_url is not well-formed.")).
  - vm_compute; reflexivity.
  - vm_compute; reflexivity.
  - reflexivity.
  - vm_compute; reflexivity.
Defined.

Lemma _run_test_iterations_runs_witness :
  (length (snd (snd two_counted_iterations)) = 4%nat /\
   fst (snd two_counted_iterations) = 2%nat) /\
  snd (snd second_iteration_fails)
  = ["starting iteration 1..."; "1"; "starting iteration 2..."] /\
  exists k, (k < 2)%nat /\
    fst (failing_second_perform_test
           (Nat.iter k (fun d => snd (failing_second_perform_test d)) 0%nat))
    = Raised (WebDriverException "connection lost") /\
    length (snd (snd second_iteration_fails)) = (2 * k + 1)%nat /\
    nth_error (snd (snd second_iteration_fails)) (2 * k)
    = Some (starting_iteration (k + 1)) /\
    fst (snd second_iteration_fails)
    = Nat.iter (S k) (fun d => snd (failing_second_perform_test d)) 0%nat.
Proof.
  split.
  - apply (_run_test_iterations_runs nat nat counting_perform_test decimal
             0%nat 2 "out" (Returned tt) (fst (snd two_counted_iterations))
             (snd (snd two_counted_iterations))).
    vm_compute; reflexivity.
  - split; [vm_compute; reflexivity|].
    apply (_run_test_iterations_runs nat nat failing_second_perform_test
             decimal 0%nat 2 "out"
             (Raised (WebDriverException "connection lost"))
             (fst (snd second_iteration_fails))
             (snd (snd second_iteration_fails))).
    vm_compute; reflexivity.
Defined.

Lemma perform_test_keeps_dictionary_accepted_witness :
  exists r es',
    NdtResult_from (_result_values (snd stalled_twice_run)) = Returned r /\
    errors r = ErrorList es'.
Proof.
  apply (perform_test_keeps_dictionary_accepted ticking
           (page_stuck_at 5%nat "12.5" "80.1" "23") decimal_text plain_str
           "http://ndt.example:7123/" "firefox" 20
           (snd stalled_download_run)
           (mkNdtResult (Datetime 1006) PyNone (Datetime 1010) PyNone
              (ErrorList [mkTestError 1014 timeout_message])
              PyNone PyNone PyNone)
           [mkTestError 1014 timeout_message]
           (fst stalled_twice_run)).
  - vm_compute; reflexivity.
  - reflexivity.
  - vm_compute; reflexivity.
Defined.
